(** * Voice-call front end: a shallow embedding of [voice-call.js] and
      [add_data.js], and the properties of the call state machine and of the
      document ingestion form.

    Definitions come first, facts after them.
    - [JsString]: JavaScript strings as sequences of UTF-16 code units, with
      the string operations the two scripts use ([trim], [padStart],
      number-to-string, the three [replace] calls of [speak]).
    - [VoiceCall]: the [VoiceCallSystem] object, the page it drives and the
      browser resources it owns (media streams, audio contexts, the speech
      synthesis queue, the recognizer, timers, the socket), with every method
      and event handler of the class as a state transformer, and the event
      loop that runs them.
    - [AddData]: the submit handler of the ingestion form.
    - [VoiceCallFacts], [AddDataFacts]: what holds of them. *)

From Stdlib Require Import ZArith NArith List String Ascii Bool Lia QArith.
Import ListNotations.

Set Implicit Arguments.

(* ------------------------------------------------------------------ *)
(** ** JavaScript strings *)

Module JsString.

Local Open Scope N_scope.

(** A JavaScript string is a sequence of UTF-16 code units. *)
Definition jsstring := list N.

(** Literals are written as Rocq strings (UTF-8 bytes in the file) and
    decoded to code units; a code point above the basic plane becomes a
    surrogate pair. *)
Definition units_of_codepoint (cp : N) : jsstring :=
  if cp <? 65536 then [cp]
  else [55296 + (cp - 65536) / 1024; 56320 + (cp - 65536) mod 1024].

Fixpoint utf16_of_utf8 (bs : list N) : jsstring :=
  match bs with
  | [] => []
  | b0 :: r0 =>
    if b0 <? 128 then b0 :: utf16_of_utf8 r0
    else
      match r0 with
      | [] => [b0]
      | b1 :: r1 =>
        if b0 <? 224 then
          units_of_codepoint ((b0 mod 32) * 64 + b1 mod 64) ++ utf16_of_utf8 r1
        else
          match r1 with
          | [] => [b0; b1]
          | b2 :: r2 =>
            if b0 <? 240 then
              units_of_codepoint
                ((b0 mod 16) * 4096 + (b1 mod 64) * 64 + b2 mod 64)
                ++ utf16_of_utf8 r2
            else
              match r2 with
              | [] => [b0; b1; b2]
              | b3 :: r3 =>
                units_of_codepoint
                  ((b0 mod 8) * 262144 + (b1 mod 64) * 4096
                   + (b2 mod 64) * 64 + b3 mod 64)
                  ++ utf16_of_utf8 r3
              end
          end
      end
  end.

Definition lit (s : string) : jsstring :=
  utf16_of_utf8 (map N_of_ascii (list_ascii_of_string s)).

Arguments lit : simpl never.

(** [String.prototype.trim] removes WhiteSpace and LineTerminator code
    units from both ends. *)
Definition isWhiteSpace (c : N) : bool :=
  (c =? 9) || (c =? 10) || (c =? 11) || (c =? 12) || (c =? 13) || (c =? 32)
  || (c =? 160) || (c =? 5760) || ((8192 <=? c) && (c <=? 8202))
  || (c =? 8232) || (c =? 8233) || (c =? 8239) || (c =? 8287)
  || (c =? 12288) || (c =? 65279).

Fixpoint trimStart (s : jsstring) : jsstring :=
  match s with
  | [] => []
  | c :: r => if isWhiteSpace c then trimStart r else s
  end.

Definition trimEnd (s : jsstring) : jsstring := rev (trimStart (rev s)).

Definition trim (s : jsstring) : jsstring := trimEnd (trimStart s).

(** Truthiness of a string: the empty string is falsy. *)
Definition truthy (s : jsstring) : bool :=
  match s with [] => false | _ => true end.

Definition length (s : jsstring) : Z := Z.of_nat (List.length s).

(** [s.substring(0, n)]. *)
Definition substring0 (n : nat) (s : jsstring) : jsstring := firstn n s.

(** [s.padStart(n, '0')]. *)
Definition padStart0 (n : nat) (s : jsstring) : jsstring :=
  repeat 48 (n - List.length s) ++ s.

(** [Number.prototype.toString] on an integer. *)
Fixpoint digits_of_uint (d : Decimal.uint) : jsstring :=
  match d with
  | Decimal.Nil => []
  | Decimal.D0 r => 48 :: digits_of_uint r
  | Decimal.D1 r => 49 :: digits_of_uint r
  | Decimal.D2 r => 50 :: digits_of_uint r
  | Decimal.D3 r => 51 :: digits_of_uint r
  | Decimal.D4 r => 52 :: digits_of_uint r
  | Decimal.D5 r => 53 :: digits_of_uint r
  | Decimal.D6 r => 54 :: digits_of_uint r
  | Decimal.D7 r => 55 :: digits_of_uint r
  | Decimal.D8 r => 56 :: digits_of_uint r
  | Decimal.D9 r => 57 :: digits_of_uint r
  end.

Definition toString (z : Z) : jsstring :=
  match Z.to_int z with
  | Decimal.Pos d => digits_of_uint d
  | Decimal.Neg d => 45 :: digits_of_uint d
  end.

(** The two decimal digits of a number below one hundred. *)
Definition twoDigits (n : Z) : jsstring :=
  [Z.to_N (48 + n / 10); Z.to_N (48 + n mod 10)].

(** [s.replace(/<[^>]*>/g, '')]: from a [<] up to the first [>] after it.
    [buf] holds, reversed, the units read since an unclosed [<]. *)
Fixpoint stripTags (buf : option jsstring) (s : jsstring) : jsstring :=
  match s with
  | [] => match buf with Some b => rev b | None => [] end
  | c :: r =>
    match buf with
    | None => if c =? 60 then stripTags (Some [c]) r else c :: stripTags None r
    | Some b => if c =? 62 then stripTags None r else stripTags (Some (c :: b)) r
    end
  end.

(** [s.replace(/\*\*/g, '')]. *)
Fixpoint stripBold (s : jsstring) : jsstring :=
  match s with
  | [] => []
  | c :: r =>
    match r with
    | d :: r' => if (c =? 42) && (d =? 42) then stripBold r' else c :: stripBold r
    | [] => [c]
    end
  end.

(** [s.replace(/```[\s\S]*?```/g, '')]: from a fence to the next fence. *)
Fixpoint stripFences (buf : option jsstring) (s : jsstring) : jsstring :=
  match s with
  | [] => match buf with Some b => rev b | None => [] end
  | c :: r =>
    match r with
    | d :: e :: r' =>
      if (c =? 96) && (d =? 96) && (e =? 96) then
        match buf with
        | None => stripFences (Some [96; 96; 96]) r'
        | Some _ => stripFences None r'
        end
      else
        match buf with
        | None => c :: stripFences None r
        | Some b => stripFences (Some (c :: b)) r
        end
    | _ =>
      match buf with
      | None => c :: stripFences None r
      | Some b => stripFences (Some (c :: b)) r
      end
    end
  end.

(** Strict equality of two strings. *)
Fixpoint eqb (s t : jsstring) : bool :=
  match s, t with
  | [], [] => true
  | c :: s', d :: t' => (c =? d) && eqb s' t'
  | _, _ => false
  end.

(** [s.startsWith(p)] and [s.includes(p)]. *)
Fixpoint startsWith (p s : jsstring) : bool :=
  match p, s with
  | [], _ => true
  | c :: p', d :: s' => (c =? d) && startsWith p' s'
  | _ :: _, [] => false
  end.

Fixpoint includes (p s : jsstring) : bool :=
  startsWith p s || match s with [] => false | _ :: s' => includes p s' end.

(** A [<] with a [>] somewhere after it, which is what [/<[^>]*>/] finds. *)
Fixpoint hasTag (s : jsstring) : bool :=
  match s with
  | [] => false
  | c :: r => ((c =? 60) && existsb (N.eqb 62) r) || hasTag r
  end.

(** [subseq a b]: [a] is [b] with some code units left out. *)
Inductive subseq : jsstring -> jsstring -> Prop :=
| subseq_nil : subseq [] []
| subseq_keep c a b : subseq a b -> subseq (c :: a) (c :: b)
| subseq_drop c a b : subseq a b -> subseq a (c :: b).

(** The units the three [replace] calls of [speak] look for. *)
Definition isMarkup (c : N) : bool := (c =? 60) || (c =? 42) || (c =? 96).

End JsString.

(* ------------------------------------------------------------------ *)
(** ** The voice call system ([voice-call.js]) *)

Module VoiceCall.

Import JsString.
Local Open Scope Z_scope.

(** *** Data *)

(** A media stream is the list of its tracks. *)
Record Track := mkTrack { stopped : bool; enabled : bool }.
Definition MediaStream := list Track.

Record Voice := mkVoice { voiceName : jsstring; voiceLang : jsstring }.

Record Utterance := mkUtterance {
  uText : jsstring;
  uRate : Q;
  uPitch : Q;
  uVolume : Q;
  uLang : jsstring;
  uVoice : option Voice
}.

Record Message := mkMessage { role : jsstring; text : jsstring; time : Z }.

Record VoiceSettings := mkVoiceSettings {
  rate : Q;
  pitch : Q;
  autoSpeak : bool;
  language : jsstring
}.

(** A status line: the element's [span] text and the class of its dot,
    each absent when [querySelector] finds none. *)
Record StatusEl := mkStatusEl {
  stText : option jsstring;
  stDot : option jsstring
}.

(** A message [div] of the conversation pane.  [nodeHtml] is the text that
    was assigned to [innerHTML] of its bubble; [nodeCut] counts how often
    [handleVoiceResponse] has since removed a part of that bubble. *)
Record MessageNode := MkMessageNode {
  nodeRole : jsstring;
  nodeClassName : jsstring;  (* the third class of the div *)
  nodeHtml : jsstring;
  nodeTime : Z;              (* the instant shown in the bubble *)
  nodeCut : nat
}.

(** The div as [addMessage] makes it. *)
Definition mkMessageNode (role className html : jsstring) (time : Z) : MessageNode :=
  MkMessageNode role className html time 0.

Record ButtonFace := mkButtonFace {
  icon : jsstring;
  label : jsstring;
  background : jsstring;
  color : jsstring
}.

(** The recognizer object: [start] on a started recognizer throws. *)
Inductive Recognizer := RecIdle | RecStarted | RecStopping.

(** Callbacks handed to [setTimeout], [setInterval] and to promises. *)
Inductive Callback :=
| CbRetryStartCall                 (* () => this.startCall() *)
| CbSpeak (t : jsstring)           (* () => this.speak(t) *)
| CbRestartRecognition             (* the retry of startRecording *)
| CbScroll                         (* the scroll of addMessage *)
| CbLoadVoices.                    (* loadVoicesWhenReady *)

Inductive Interval := IvKeepAlive | IvCallTimer.

Inductive MicCaller := FromStartCall | FromGrantButton.

Inductive Promise :=
| PGetUserMedia (caller : MicCaller)
| PHealth.

Inductive Emit :=
| EmPing
| EmVoiceInput (t : jsstring) (session_id : option jsstring) (timestamp : Z).

Inductive Level := Log | Warn | Error.
Definition LogEntry := (Level * list jsstring)%type.

(** The fields of a [VoiceCallSystem] object, as its constructor sets them.
    [this.synthesis] refers to the browser's queue, [speechSynthesis] below. *)
Record VoiceCallSystem := mkVoiceCallSystem {
  socket : bool;  (* this.socket is not null *)
  isConnected : bool;
  mediaStream : option nat;  (* handle of the stream held, an index into [streams] *)
  audioContext : option nat;  (* handle of the audio context, an index into [contexts] *)
  analyser : bool;  (* this.analyser is not null *)
  visualizerAnimationId : option positive;
  recognition : bool;  (* this.recognition is not null *)
  isRecognizing : bool;
  currentUtterance : option Utterance;
  isCallActive : bool;
  isMuted : bool;
  isOnHold : bool;
  isRecording : bool;
  callStartTime : option Z;
  timerInterval : option positive;
  sessionId : option jsstring;
  messageHistory : list Message;
  voiceSettings : VoiceSettings
}.

Definition set_isConnected (v : bool) (r : VoiceCallSystem) : VoiceCallSystem :=
  mkVoiceCallSystem (socket r) v (mediaStream r) (audioContext r)
    (analyser r) (visualizerAnimationId r) (recognition r) (isRecognizing r)
    (currentUtterance r) (isCallActive r) (isMuted r) (isOnHold r)
    (isRecording r) (callStartTime r) (timerInterval r) (sessionId r)
    (messageHistory r) (voiceSettings r).
Definition set_mediaStream (v : option nat) (r : VoiceCallSystem) : VoiceCallSystem :=
  mkVoiceCallSystem (socket r) (isConnected r) v (audioContext r)
    (analyser r) (visualizerAnimationId r) (recognition r) (isRecognizing r)
    (currentUtterance r) (isCallActive r) (isMuted r) (isOnHold r)
    (isRecording r) (callStartTime r) (timerInterval r) (sessionId r)
    (messageHistory r) (voiceSettings r).
Definition set_audioContext (v : option nat) (r : VoiceCallSystem) : VoiceCallSystem :=
  mkVoiceCallSystem (socket r) (isConnected r) (mediaStream r) v (analyser r)
    (visualizerAnimationId r) (recognition r) (isRecognizing r)
    (currentUtterance r) (isCallActive r) (isMuted r) (isOnHold r)
    (isRecording r) (callStartTime r) (timerInterval r) (sessionId r)
    (messageHistory r) (voiceSettings r).
Definition set_analyser (v : bool) (r : VoiceCallSystem) : VoiceCallSystem :=
  mkVoiceCallSystem (socket r) (isConnected r) (mediaStream r)
    (audioContext r) v (visualizerAnimationId r) (recognition r)
    (isRecognizing r) (currentUtterance r) (isCallActive r) (isMuted r)
    (isOnHold r) (isRecording r) (callStartTime r) (timerInterval r)
    (sessionId r) (messageHistory r) (voiceSettings r).
Definition set_visualizerAnimationId (v : option positive) (r : VoiceCallSystem) : VoiceCallSystem :=
  mkVoiceCallSystem (socket r) (isConnected r) (mediaStream r)
    (audioContext r) (analyser r) v (recognition r) (isRecognizing r)
    (currentUtterance r) (isCallActive r) (isMuted r) (isOnHold r)
    (isRecording r) (callStartTime r) (timerInterval r) (sessionId r)
    (messageHistory r) (voiceSettings r).
Definition set_isRecognizing (v : bool) (r : VoiceCallSystem) : VoiceCallSystem :=
  mkVoiceCallSystem (socket r) (isConnected r) (mediaStream r)
    (audioContext r) (analyser r) (visualizerAnimationId r) (recognition r) v
    (currentUtterance r) (isCallActive r) (isMuted r) (isOnHold r)
    (isRecording r) (callStartTime r) (timerInterval r) (sessionId r)
    (messageHistory r) (voiceSettings r).
Definition set_currentUtterance (v : option Utterance) (r : VoiceCallSystem) : VoiceCallSystem :=
  mkVoiceCallSystem (socket r) (isConnected r) (mediaStream r)
    (audioContext r) (analyser r) (visualizerAnimationId r) (recognition r)
    (isRecognizing r) v (isCallActive r) (isMuted r) (isOnHold r)
    (isRecording r) (callStartTime r) (timerInterval r) (sessionId r)
    (messageHistory r) (voiceSettings r).
Definition set_isCallActive (v : bool) (r : VoiceCallSystem) : VoiceCallSystem :=
  mkVoiceCallSystem (socket r) (isConnected r) (mediaStream r)
    (audioContext r) (analyser r) (visualizerAnimationId r) (recognition r)
    (isRecognizing r) (currentUtterance r) v (isMuted r) (isOnHold r)
    (isRecording r) (callStartTime r) (timerInterval r) (sessionId r)
    (messageHistory r) (voiceSettings r).
Definition set_isMuted (v : bool) (r : VoiceCallSystem) : VoiceCallSystem :=
  mkVoiceCallSystem (socket r) (isConnected r) (mediaStream r)
    (audioContext r) (analyser r) (visualizerAnimationId r) (recognition r)
    (isRecognizing r) (currentUtterance r) (isCallActive r) v (isOnHold r)
    (isRecording r) (callStartTime r) (timerInterval r) (sessionId r)
    (messageHistory r) (voiceSettings r).
Definition set_isOnHold (v : bool) (r : VoiceCallSystem) : VoiceCallSystem :=
  mkVoiceCallSystem (socket r) (isConnected r) (mediaStream r)
    (audioContext r) (analyser r) (visualizerAnimationId r) (recognition r)
    (isRecognizing r) (currentUtterance r) (isCallActive r) (isMuted r) v
    (isRecording r) (callStartTime r) (timerInterval r) (sessionId r)
    (messageHistory r) (voiceSettings r).
Definition set_isRecording (v : bool) (r : VoiceCallSystem) : VoiceCallSystem :=
  mkVoiceCallSystem (socket r) (isConnected r) (mediaStream r)
    (audioContext r) (analyser r) (visualizerAnimationId r) (recognition r)
    (isRecognizing r) (currentUtterance r) (isCallActive r) (isMuted r)
    (isOnHold r) v (callStartTime r) (timerInterval r) (sessionId r)
    (messageHistory r) (voiceSettings r).
Definition set_callStartTime (v : option Z) (r : VoiceCallSystem) : VoiceCallSystem :=
  mkVoiceCallSystem (socket r) (isConnected r) (mediaStream r)
    (audioContext r) (analyser r) (visualizerAnimationId r) (recognition r)
    (isRecognizing r) (currentUtterance r) (isCallActive r) (isMuted r)
    (isOnHold r) (isRecording r) v (timerInterval r) (sessionId r)
    (messageHistory r) (voiceSettings r).
Definition set_timerInterval (v : option positive) (r : VoiceCallSystem) : VoiceCallSystem :=
  mkVoiceCallSystem (socket r) (isConnected r) (mediaStream r)
    (audioContext r) (analyser r) (visualizerAnimationId r) (recognition r)
    (isRecognizing r) (currentUtterance r) (isCallActive r) (isMuted r)
    (isOnHold r) (isRecording r) (callStartTime r) v (sessionId r)
    (messageHistory r) (voiceSettings r).
Definition set_sessionId (v : option jsstring) (r : VoiceCallSystem) : VoiceCallSystem :=
  mkVoiceCallSystem (socket r) (isConnected r) (mediaStream r)
    (audioContext r) (analyser r) (visualizerAnimationId r) (recognition r)
    (isRecognizing r) (currentUtterance r) (isCallActive r) (isMuted r)
    (isOnHold r) (isRecording r) (callStartTime r) (timerInterval r) v
    (messageHistory r) (voiceSettings r).
Definition set_messageHistory (v : list Message) (r : VoiceCallSystem) : VoiceCallSystem :=
  mkVoiceCallSystem (socket r) (isConnected r) (mediaStream r)
    (audioContext r) (analyser r) (visualizerAnimationId r) (recognition r)
    (isRecognizing r) (currentUtterance r) (isCallActive r) (isMuted r)
    (isOnHold r) (isRecording r) (callStartTime r) (timerInterval r)
    (sessionId r) v (voiceSettings r).
Definition set_voiceSettings (v : VoiceSettings) (r : VoiceCallSystem) : VoiceCallSystem :=
  mkVoiceCallSystem (socket r) (isConnected r) (mediaStream r)
    (audioContext r) (analyser r) (visualizerAnimationId r) (recognition r)
    (isRecognizing r) (currentUtterance r) (isCallActive r) (isMuted r)
    (isOnHold r) (isRecording r) (callStartTime r) (timerInterval r)
    (sessionId r) (messageHistory r) v.

(** The elements [setupElements] looks up, with the part of their state the
    class reads or writes.  Elements that the class guards with a null test
    are options; the others are taken to exist. *)
Record Page := mkPage {
  visualizerCanvas : bool;  (* the canvas element exists *)
  callStatus : option StatusEl;
  ragStatus : option StatusEl;
  micStatus : option StatusEl;
  permissionModalHidden : bool;
  settingsModalHidden : bool;
  preCallStateHidden : bool;
  activeCallStateHidden : bool;
  startCallBtnHidden : bool;
  endCallBtnHidden : bool;
  voiceControlsHidden : bool;
  callTimerHidden : bool;
  speakingIndicatorHidden : bool;
  pushToTalkRecording : bool;  (* the button carries the class recording *)
  callTimerText : jsstring;
  conversationPane : list MessageNode;  (* children of the pane, oldest first *)
  conversationPaneAttached : bool;  (* the pane is still in the document *)
  muteBtn : ButtonFace;
  holdBtn : ButtonFace;
  speedValue : option jsstring;
  pitchValue : option jsstring
}.

Definition set_callStatus (v : option StatusEl) (r : Page) : Page :=
  mkPage (visualizerCanvas r) v (ragStatus r) (micStatus r)
    (permissionModalHidden r) (settingsModalHidden r) (preCallStateHidden r)
    (activeCallStateHidden r) (startCallBtnHidden r) (endCallBtnHidden r)
    (voiceControlsHidden r) (callTimerHidden r) (speakingIndicatorHidden r)
    (pushToTalkRecording r) (callTimerText r) (conversationPane r)
    (conversationPaneAttached r) (muteBtn r) (holdBtn r) (speedValue r)
    (pitchValue r).
Definition set_ragStatus (v : option StatusEl) (r : Page) : Page :=
  mkPage (visualizerCanvas r) (callStatus r) v (micStatus r)
    (permissionModalHidden r) (settingsModalHidden r) (preCallStateHidden r)
    (activeCallStateHidden r) (startCallBtnHidden r) (endCallBtnHidden r)
    (voiceControlsHidden r) (callTimerHidden r) (speakingIndicatorHidden r)
    (pushToTalkRecording r) (callTimerText r) (conversationPane r)
    (conversationPaneAttached r) (muteBtn r) (holdBtn r) (speedValue r)
    (pitchValue r).
Definition set_micStatus (v : option StatusEl) (r : Page) : Page :=
  mkPage (visualizerCanvas r) (callStatus r) (ragStatus r) v
    (permissionModalHidden r) (settingsModalHidden r) (preCallStateHidden r)
    (activeCallStateHidden r) (startCallBtnHidden r) (endCallBtnHidden r)
    (voiceControlsHidden r) (callTimerHidden r) (speakingIndicatorHidden r)
    (pushToTalkRecording r) (callTimerText r) (conversationPane r)
    (conversationPaneAttached r) (muteBtn r) (holdBtn r) (speedValue r)
    (pitchValue r).
Definition set_permissionModalHidden (v : bool) (r : Page) : Page :=
  mkPage (visualizerCanvas r) (callStatus r) (ragStatus r) (micStatus r) v
    (settingsModalHidden r) (preCallStateHidden r) (activeCallStateHidden r)
    (startCallBtnHidden r) (endCallBtnHidden r) (voiceControlsHidden r)
    (callTimerHidden r) (speakingIndicatorHidden r) (pushToTalkRecording r)
    (callTimerText r) (conversationPane r) (conversationPaneAttached r)
    (muteBtn r) (holdBtn r) (speedValue r) (pitchValue r).
Definition set_settingsModalHidden (v : bool) (r : Page) : Page :=
  mkPage (visualizerCanvas r) (callStatus r) (ragStatus r) (micStatus r)
    (permissionModalHidden r) v (preCallStateHidden r)
    (activeCallStateHidden r) (startCallBtnHidden r) (endCallBtnHidden r)
    (voiceControlsHidden r) (callTimerHidden r) (speakingIndicatorHidden r)
    (pushToTalkRecording r) (callTimerText r) (conversationPane r)
    (conversationPaneAttached r) (muteBtn r) (holdBtn r) (speedValue r)
    (pitchValue r).
Definition set_preCallStateHidden (v : bool) (r : Page) : Page :=
  mkPage (visualizerCanvas r) (callStatus r) (ragStatus r) (micStatus r)
    (permissionModalHidden r) (settingsModalHidden r) v
    (activeCallStateHidden r) (startCallBtnHidden r) (endCallBtnHidden r)
    (voiceControlsHidden r) (callTimerHidden r) (speakingIndicatorHidden r)
    (pushToTalkRecording r) (callTimerText r) (conversationPane r)
    (conversationPaneAttached r) (muteBtn r) (holdBtn r) (speedValue r)
    (pitchValue r).
Definition set_activeCallStateHidden (v : bool) (r : Page) : Page :=
  mkPage (visualizerCanvas r) (callStatus r) (ragStatus r) (micStatus r)
    (permissionModalHidden r) (settingsModalHidden r) (preCallStateHidden r)
    v (startCallBtnHidden r) (endCallBtnHidden r) (voiceControlsHidden r)
    (callTimerHidden r) (speakingIndicatorHidden r) (pushToTalkRecording r)
    (callTimerText r) (conversationPane r) (conversationPaneAttached r)
    (muteBtn r) (holdBtn r) (speedValue r) (pitchValue r).
Definition set_startCallBtnHidden (v : bool) (r : Page) : Page :=
  mkPage (visualizerCanvas r) (callStatus r) (ragStatus r) (micStatus r)
    (permissionModalHidden r) (settingsModalHidden r) (preCallStateHidden r)
    (activeCallStateHidden r) v (endCallBtnHidden r) (voiceControlsHidden r)
    (callTimerHidden r) (speakingIndicatorHidden r) (pushToTalkRecording r)
    (callTimerText r) (conversationPane r) (conversationPaneAttached r)
    (muteBtn r) (holdBtn r) (speedValue r) (pitchValue r).
Definition set_endCallBtnHidden (v : bool) (r : Page) : Page :=
  mkPage (visualizerCanvas r) (callStatus r) (ragStatus r) (micStatus r)
    (permissionModalHidden r) (settingsModalHidden r) (preCallStateHidden r)
    (activeCallStateHidden r) (startCallBtnHidden r) v
    (voiceControlsHidden r) (callTimerHidden r) (speakingIndicatorHidden r)
    (pushToTalkRecording r) (callTimerText r) (conversationPane r)
    (conversationPaneAttached r) (muteBtn r) (holdBtn r) (speedValue r)
    (pitchValue r).
Definition set_voiceControlsHidden (v : bool) (r : Page) : Page :=
  mkPage (visualizerCanvas r) (callStatus r) (ragStatus r) (micStatus r)
    (permissionModalHidden r) (settingsModalHidden r) (preCallStateHidden r)
    (activeCallStateHidden r) (startCallBtnHidden r) (endCallBtnHidden r) v
    (callTimerHidden r) (speakingIndicatorHidden r) (pushToTalkRecording r)
    (callTimerText r) (conversationPane r) (conversationPaneAttached r)
    (muteBtn r) (holdBtn r) (speedValue r) (pitchValue r).
Definition set_callTimerHidden (v : bool) (r : Page) : Page :=
  mkPage (visualizerCanvas r) (callStatus r) (ragStatus r) (micStatus r)
    (permissionModalHidden r) (settingsModalHidden r) (preCallStateHidden r)
    (activeCallStateHidden r) (startCallBtnHidden r) (endCallBtnHidden r)
    (voiceControlsHidden r) v (speakingIndicatorHidden r)
    (pushToTalkRecording r) (callTimerText r) (conversationPane r)
    (conversationPaneAttached r) (muteBtn r) (holdBtn r) (speedValue r)
    (pitchValue r).
Definition set_speakingIndicatorHidden (v : bool) (r : Page) : Page :=
  mkPage (visualizerCanvas r) (callStatus r) (ragStatus r) (micStatus r)
    (permissionModalHidden r) (settingsModalHidden r) (preCallStateHidden r)
    (activeCallStateHidden r) (startCallBtnHidden r) (endCallBtnHidden r)
    (voiceControlsHidden r) (callTimerHidden r) v (pushToTalkRecording r)
    (callTimerText r) (conversationPane r) (conversationPaneAttached r)
    (muteBtn r) (holdBtn r) (speedValue r) (pitchValue r).
Definition set_pushToTalkRecording (v : bool) (r : Page) : Page :=
  mkPage (visualizerCanvas r) (callStatus r) (ragStatus r) (micStatus r)
    (permissionModalHidden r) (settingsModalHidden r) (preCallStateHidden r)
    (activeCallStateHidden r) (startCallBtnHidden r) (endCallBtnHidden r)
    (voiceControlsHidden r) (callTimerHidden r) (speakingIndicatorHidden r) v
    (callTimerText r) (conversationPane r) (conversationPaneAttached r)
    (muteBtn r) (holdBtn r) (speedValue r) (pitchValue r).
Definition set_callTimerText (v : jsstring) (r : Page) : Page :=
  mkPage (visualizerCanvas r) (callStatus r) (ragStatus r) (micStatus r)
    (permissionModalHidden r) (settingsModalHidden r) (preCallStateHidden r)
    (activeCallStateHidden r) (startCallBtnHidden r) (endCallBtnHidden r)
    (voiceControlsHidden r) (callTimerHidden r) (speakingIndicatorHidden r)
    (pushToTalkRecording r) v (conversationPane r)
    (conversationPaneAttached r) (muteBtn r) (holdBtn r) (speedValue r)
    (pitchValue r).
Definition set_conversationPane (v : list MessageNode) (r : Page) : Page :=
  mkPage (visualizerCanvas r) (callStatus r) (ragStatus r) (micStatus r)
    (permissionModalHidden r) (settingsModalHidden r) (preCallStateHidden r)
    (activeCallStateHidden r) (startCallBtnHidden r) (endCallBtnHidden r)
    (voiceControlsHidden r) (callTimerHidden r) (speakingIndicatorHidden r)
    (pushToTalkRecording r) (callTimerText r) v (conversationPaneAttached r)
    (muteBtn r) (holdBtn r) (speedValue r) (pitchValue r).
Definition set_conversationPaneAttached (v : bool) (r : Page) : Page :=
  mkPage (visualizerCanvas r) (callStatus r) (ragStatus r) (micStatus r)
    (permissionModalHidden r) (settingsModalHidden r) (preCallStateHidden r)
    (activeCallStateHidden r) (startCallBtnHidden r) (endCallBtnHidden r)
    (voiceControlsHidden r) (callTimerHidden r) (speakingIndicatorHidden r)
    (pushToTalkRecording r) (callTimerText r) (conversationPane r) v
    (muteBtn r) (holdBtn r) (speedValue r) (pitchValue r).
Definition set_muteBtn (v : ButtonFace) (r : Page) : Page :=
  mkPage (visualizerCanvas r) (callStatus r) (ragStatus r) (micStatus r)
    (permissionModalHidden r) (settingsModalHidden r) (preCallStateHidden r)
    (activeCallStateHidden r) (startCallBtnHidden r) (endCallBtnHidden r)
    (voiceControlsHidden r) (callTimerHidden r) (speakingIndicatorHidden r)
    (pushToTalkRecording r) (callTimerText r) (conversationPane r)
    (conversationPaneAttached r) v (holdBtn r) (speedValue r) (pitchValue r)
   .
Definition set_holdBtn (v : ButtonFace) (r : Page) : Page :=
  mkPage (visualizerCanvas r) (callStatus r) (ragStatus r) (micStatus r)
    (permissionModalHidden r) (settingsModalHidden r) (preCallStateHidden r)
    (activeCallStateHidden r) (startCallBtnHidden r) (endCallBtnHidden r)
    (voiceControlsHidden r) (callTimerHidden r) (speakingIndicatorHidden r)
    (pushToTalkRecording r) (callTimerText r) (conversationPane r)
    (conversationPaneAttached r) (muteBtn r) v (speedValue r) (pitchValue r)
   .
Definition set_speedValue (v : option jsstring) (r : Page) : Page :=
  mkPage (visualizerCanvas r) (callStatus r) (ragStatus r) (micStatus r)
    (permissionModalHidden r) (settingsModalHidden r) (preCallStateHidden r)
    (activeCallStateHidden r) (startCallBtnHidden r) (endCallBtnHidden r)
    (voiceControlsHidden r) (callTimerHidden r) (speakingIndicatorHidden r)
    (pushToTalkRecording r) (callTimerText r) (conversationPane r)
    (conversationPaneAttached r) (muteBtn r) (holdBtn r) v (pitchValue r).
Definition set_pitchValue (v : option jsstring) (r : Page) : Page :=
  mkPage (visualizerCanvas r) (callStatus r) (ragStatus r) (micStatus r)
    (permissionModalHidden r) (settingsModalHidden r) (preCallStateHidden r)
    (activeCallStateHidden r) (startCallBtnHidden r) (endCallBtnHidden r)
    (voiceControlsHidden r) (callTimerHidden r) (speakingIndicatorHidden r)
    (pushToTalkRecording r) (callTimerText r) (conversationPane r)
    (conversationPaneAttached r) (muteBtn r) (holdBtn r) (speedValue r) v.

(** The browser resources the class acquires and the event loop's queues. *)
Record Browser := mkBrowser {
  streams : list MediaStream;  (* every stream getUserMedia has returned *)
  contexts : list bool;  (* every audio context created; true when closed *)
  audioContextAvailable : bool;  (* the AudioContext constructor succeeds *)
  speechSynthesis : option (list Utterance);  (* the synthesis queue; None when the API is absent *)
  voices : list Voice;  (* speechSynthesis.getVoices() *)
  recognizer : Recognizer;
  timeouts : list (Z * Callback);  (* pending setTimeout callbacks with their delay *)
  intervals : list (positive * (Z * Interval));  (* live setInterval timers by id *)
  frames : list positive;  (* pending requestAnimationFrame ids *)
  nextHandle : positive;  (* next timer or frame id *)
  promises : list Promise;  (* promises not yet settled *)
  emitted : list Emit;  (* what was sent over the socket *)
  console : list LogEntry;
  now : Z;  (* Date.now() *)
  loadingRounds : jsstring -> nat
    (* the HTML parser: for a text assigned to innerHTML of a bubble, how
       many times in a row [querySelector('.loading')] finds an element
       inside the bubble when the parent of the one found is removed *)
}.

Definition set_streams (v : list MediaStream) (r : Browser) : Browser :=
  mkBrowser v (contexts r) (audioContextAvailable r) (speechSynthesis r)
    (voices r) (recognizer r) (timeouts r) (intervals r) (frames r)
    (nextHandle r) (promises r) (emitted r) (console r) (now r) (loadingRounds r).
Definition set_contexts (v : list bool) (r : Browser) : Browser :=
  mkBrowser (streams r) v (audioContextAvailable r) (speechSynthesis r)
    (voices r) (recognizer r) (timeouts r) (intervals r) (frames r)
    (nextHandle r) (promises r) (emitted r) (console r) (now r) (loadingRounds r).
Definition set_speechSynthesis (v : option (list Utterance)) (r : Browser) : Browser :=
  mkBrowser (streams r) (contexts r) (audioContextAvailable r) v (voices r)
    (recognizer r) (timeouts r) (intervals r) (frames r) (nextHandle r)
    (promises r) (emitted r) (console r) (now r) (loadingRounds r).
Definition set_voices (v : list Voice) (r : Browser) : Browser :=
  mkBrowser (streams r) (contexts r) (audioContextAvailable r)
    (speechSynthesis r) v (recognizer r) (timeouts r) (intervals r)
    (frames r) (nextHandle r) (promises r) (emitted r) (console r) (now r) (loadingRounds r).
Definition set_recognizer (v : Recognizer) (r : Browser) : Browser :=
  mkBrowser (streams r) (contexts r) (audioContextAvailable r)
    (speechSynthesis r) (voices r) v (timeouts r) (intervals r) (frames r)
    (nextHandle r) (promises r) (emitted r) (console r) (now r) (loadingRounds r).
Definition set_timeouts (v : list (Z * Callback)) (r : Browser) : Browser :=
  mkBrowser (streams r) (contexts r) (audioContextAvailable r)
    (speechSynthesis r) (voices r) (recognizer r) v (intervals r) (frames r)
    (nextHandle r) (promises r) (emitted r) (console r) (now r) (loadingRounds r).
Definition set_intervals (v : list (positive * (Z * Interval))) (r : Browser) : Browser :=
  mkBrowser (streams r) (contexts r) (audioContextAvailable r)
    (speechSynthesis r) (voices r) (recognizer r) (timeouts r) v (frames r)
    (nextHandle r) (promises r) (emitted r) (console r) (now r) (loadingRounds r).
Definition set_frames (v : list positive) (r : Browser) : Browser :=
  mkBrowser (streams r) (contexts r) (audioContextAvailable r)
    (speechSynthesis r) (voices r) (recognizer r) (timeouts r) (intervals r)
    v (nextHandle r) (promises r) (emitted r) (console r) (now r) (loadingRounds r).
Definition set_nextHandle (v : positive) (r : Browser) : Browser :=
  mkBrowser (streams r) (contexts r) (audioContextAvailable r)
    (speechSynthesis r) (voices r) (recognizer r) (timeouts r) (intervals r)
    (frames r) v (promises r) (emitted r) (console r) (now r) (loadingRounds r).
Definition set_promises (v : list Promise) (r : Browser) : Browser :=
  mkBrowser (streams r) (contexts r) (audioContextAvailable r)
    (speechSynthesis r) (voices r) (recognizer r) (timeouts r) (intervals r)
    (frames r) (nextHandle r) v (emitted r) (console r) (now r) (loadingRounds r).
Definition set_emitted (v : list Emit) (r : Browser) : Browser :=
  mkBrowser (streams r) (contexts r) (audioContextAvailable r)
    (speechSynthesis r) (voices r) (recognizer r) (timeouts r) (intervals r)
    (frames r) (nextHandle r) (promises r) v (console r) (now r) (loadingRounds r).
Definition set_console (v : list LogEntry) (r : Browser) : Browser :=
  mkBrowser (streams r) (contexts r) (audioContextAvailable r)
    (speechSynthesis r) (voices r) (recognizer r) (timeouts r) (intervals r)
    (frames r) (nextHandle r) (promises r) (emitted r) v (now r) (loadingRounds r).
Definition set_now (v : Z) (r : Browser) : Browser :=
  mkBrowser (streams r) (contexts r) (audioContextAvailable r)
    (speechSynthesis r) (voices r) (recognizer r) (timeouts r) (intervals r)
    (frames r) (nextHandle r) (promises r) (emitted r) (console r) v (loadingRounds r).


Record State := mkState {
  this : VoiceCallSystem;
  page : Page;
  browser : Browser
}.

(** *** State passing

    A method or handler is a function on [State]; [a ;; b] runs [a] and then
    [b]. *)
Definition Action := State -> State.

Definition andThen (a b : Action) : Action := fun st => b (a st).
Infix ";;" := andThen (at level 61, right associativity).

Definition skip : Action := fun st => st.

Definition onThis (f : VoiceCallSystem -> VoiceCallSystem) : Action :=
  fun st => mkState (f (this st)) (page st) (browser st).
Definition onPage (f : Page -> Page) : Action :=
  fun st => mkState (this st) (f (page st)) (browser st).
Definition onBrowser (f : Browser -> Browser) : Action :=
  fun st => mkState (this st) (page st) (f (browser st)).

(** [console.log], [console.warn] and [console.error]; the arguments are
    kept as strings. *)
Definition consoleWrite (l : Level) (args : list jsstring) : Action :=
  onBrowser (fun b => set_console (console b ++ [(l, args)]) b).

(** [setTimeout(cb, delay)]; the class keeps none of the ids. *)
Definition setTimeout (cb : Callback) (delay : Z) : Action :=
  onBrowser (fun b => set_timeouts (timeouts b ++ [(delay, cb)]) b).

(** *** Status updates

    Each of the three returns at once when its element is missing, and
    writes the text and the dot only where [querySelector] finds them. *)

Definition updateStatus (message state : jsstring) : Action :=
  onPage (fun p =>
    set_callStatus
      (option_map (fun el =>
         mkStatusEl
           (option_map (fun _ => message) (stText el))
           (option_map (fun _ =>
              if eqb state (lit "active") then lit "status-dot bg-green-500"
              else lit "status-dot bg-slate-500") (stDot el)))
         (callStatus p)) p).

Definition updateRAGStatus (message : jsstring) (isConnected : bool) : Action :=
  onPage (fun p =>
    set_ragStatus
      (option_map (fun el =>
         mkStatusEl
           (option_map (fun _ => lit "RAG: " ++ message) (stText el))
           (option_map (fun _ =>
              lit "w-2 h-2 rounded-full "
              ++ (if isConnected then lit "bg-green-500" else lit "bg-slate-500"))
              (stDot el)))
         (ragStatus p)) p).

Definition updateMicStatus (message : jsstring) (isConnected : bool) : Action :=
  onPage (fun p =>
    set_micStatus
      (option_map (fun el =>
         mkStatusEl
           (option_map (fun _ => lit "Microphone: " ++ message) (stText el))
           (option_map (fun _ =>
              lit "w-2 h-2 rounded-full "
              ++ (if isConnected then lit "bg-green-500" else lit "bg-red-500"))
              (stDot el)))
         (micStatus p)) p).

(** *** Messages *)

Definition addMessage (role text className : jsstring) : Action :=
  fun st =>
    let t := now (browser st) in
    (onPage (fun p =>
       set_conversationPane
         (conversationPane p ++ [mkMessageNode role className text t]) p) ;;
     onThis (fun o =>
       set_messageHistory (messageHistory o ++ [mkMessage role text t]) o) ;;
     setTimeout CbScroll 100) st.

(** *** Text to speech *)

Definition cleanText (text : jsstring) : jsstring :=
  stripFences None (stripBold (stripTags None text)).

Definition isEnglish (v : Voice) : bool := startsWith (lit "en") (voiceLang v).

Definition preferredVoice (vs : list Voice) : option Voice :=
  match
    find (fun v =>
      isEnglish v
      && (includes (lit "Female") (voiceName v)
          || includes (lit "Samantha") (voiceName v))) vs
  with
  | Some v => Some v
  | None => find isEnglish vs
  end.

(** [this.synthesis.cancel()], where the queue exists. *)
Definition synthesisCancel : Action :=
  onBrowser (fun b => set_speechSynthesis (option_map (fun _ => []) (speechSynthesis b)) b).

Definition speak (text : jsstring) : Action :=
  fun st =>
    match speechSynthesis (browser st) with
    | None => consoleWrite Error [lit "❌ Text-to-speech not supported"] st
    | Some _ =>
      let st := synthesisCancel st in
      let clean := cleanText text in
      if negb (truthy (trim clean)) then st
      else
        let st :=
          consoleWrite Log
            [lit "🔊 Speaking:"; substring0 50 clean ++ lit "..."] st in
        let voice := preferredVoice (voices (browser st)) in
        let utterance :=
          mkUtterance clean (rate (voiceSettings (this st)))
            (pitch (voiceSettings (this st))) 1
            (language (voiceSettings (this st))) voice in
        let st :=
          match voice with
          | Some v => consoleWrite Log [lit "🎤 Using voice:"; voiceName v] st
          | None => st
          end in
        (onThis (set_currentUtterance (Some utterance)) ;;
         onBrowser (fun b =>
           set_speechSynthesis
             (option_map (fun q => q ++ [utterance]) (speechSynthesis b)) b)) st
    end.

(** The utterances the browser still has to finish. *)
Definition outstanding (st : State) : list Utterance :=
  match speechSynthesis (browser st) with
  | Some q => q
  | None => []
  end.

(** *** Timer *)

Definition formatElapsed (elapsed : Z) : jsstring :=
  let minutes := elapsed / 60000 in
  let seconds := Z.rem elapsed 60000 / 1000 in
  padStart0 2 (toString minutes) ++ lit ":" ++ padStart0 2 (toString seconds).

(** The callback of the interval that [startTimer] installs. *)
Definition timerTick : Action :=
  fun st =>
    match callStartTime (this st) with
    | None => st
    | Some t0 =>
      if t0 =? 0 then st
      else onPage (set_callTimerText (formatElapsed (now (browser st) - t0))) st
    end.

(** [setInterval(cb, period)] returns a fresh positive id. *)
Definition setInterval (cb : Interval) (period : Z) (st : State)
  : positive * State :=
  let id := nextHandle (browser st) in
  (id,
   onBrowser (fun b =>
     set_nextHandle (Pos.succ id) (set_intervals (intervals b ++ [(id, (period, cb))]) b))
     st).

Definition clearInterval (id : positive) : Action :=
  onBrowser (fun b =>
    set_intervals (filter (fun e => negb (Pos.eqb (fst e) id)) (intervals b)) b).

Definition startTimer : Action :=
  fun st =>
    let (id, st) := setInterval IvCallTimer 1000 st in
    onThis (set_timerInterval (Some id)) st.

(** *** Microphone and visualizer *)

Fixpoint adjust {A : Type} (f : A -> A) (n : nat) (l : list A) : list A :=
  match l, n with
  | [], _ => []
  | x :: r, O => f x :: r
  | x :: r, S n' => x :: adjust f n' r
  end.

Definition requestAnimationFrame (st : State) : positive * State :=
  let id := nextHandle (browser st) in
  (id,
   onBrowser (fun b => set_nextHandle (Pos.succ id) (set_frames (frames b ++ [id]) b))
     st).

Definition cancelAnimationFrame (id : positive) : Action :=
  onBrowser (fun b => set_frames (filter (fun f => negb (Pos.eqb f id)) (frames b)) b).

(** One run of [draw]; what it paints on the canvas is not part of the
    state. *)
Definition draw : Action :=
  fun st =>
    if negb (isCallActive (this st)) then st
    else
      let (id, st) := requestAnimationFrame st in
      onThis (set_visualizerAnimationId (Some id)) st.

Definition visualizeAudio : Action :=
  fun st =>
    if negb (visualizerCanvas (page st)) || negb (analyser (this st)) then st
    else draw st.

Definition setupAudioVisualization : Action :=
  fun st =>
    if negb (visualizerCanvas (page st)) then st
    else if audioContextAvailable (browser st) then
      let h := List.length (contexts (browser st)) in
      (onBrowser (fun b => set_contexts (contexts b ++ [false]) b) ;;
       onThis (fun o => set_analyser true (set_audioContext (Some h) o)) ;;
       consoleWrite Log [lit "✅ Audio visualization setup"] ;;
       visualizeAudio) st
    else consoleWrite Error [lit "❌ Audio visualization error:"] st.

(** [requestMicrophonePermission] up to its [await]: the request is left
    pending, together with who awaits it. *)
Definition requestMicrophonePermission (caller : MicCaller) : Action :=
  consoleWrite Log [lit "🎤 Requesting microphone permission..."] ;;
  onBrowser (fun b => set_promises (promises b ++ [PGetUserMedia caller]) b).

(** The rest of [requestMicrophonePermission] when [getUserMedia] resolves
    with a new stream of one live audio track ... *)
Definition microphoneGranted : Action :=
  fun st =>
    let h := List.length (streams (browser st)) in
    (onBrowser (fun b => set_streams (streams b ++ [[mkTrack false true]]) b) ;;
     onThis (set_mediaStream (Some h)) ;;
     updateMicStatus (lit "Connected") true ;;
     consoleWrite Log [lit "✅ Microphone access granted"] ;;
     setupAudioVisualization) st.

(** ... and when it rejects. *)
Definition microphoneDenied : Action :=
  consoleWrite Error [lit "❌ Microphone permission denied:"] ;;
  updateMicStatus (lit "Permission denied") false ;;
  addMessage (lit "assistant")
    (lit "I need microphone access to hear you. Please allow microphone access in your browser settings.")
    [].

(** *** Call management *)

Definition welcome : jsstring :=
  lit "Hello! I'm Musab AI, your Irish immigration assistant. How can I help you today?".

(** [startCall] from the socket check on. *)
Definition startCallResume : Action :=
  fun st =>
    if negb (isConnected (this st)) then
      (addMessage (lit "assistant") (lit "Connecting to server... Please wait.") [] ;;
       setTimeout CbRetryStartCall 2000) st
    else
      (onThis (fun o =>
         set_callStartTime (Some (now (browser st))) (set_isCallActive true o)) ;;
       onPage (fun p =>
         set_callTimerHidden false
           (set_voiceControlsHidden false
              (set_endCallBtnHidden false
                 (set_startCallBtnHidden true
                    (set_activeCallStateHidden false
                       (set_preCallStateHidden true p)))))) ;;
       startTimer ;;
       updateStatus (lit "Call active") (lit "active") ;;
       addMessage (lit "assistant") welcome [] ;;
       (fun st =>
          if autoSpeak (voiceSettings (this st)) then
            setTimeout (CbSpeak welcome) 500 st
          else st) ;;
       consoleWrite Log [lit "✅ Call started"]) st.

(** [startCall] up to its first suspension. *)
Definition startCall : Action :=
  consoleWrite Log [lit "📞 Starting call..."] ;;
  (fun st =>
     match mediaStream (this st) with
     | None =>
       (onPage (set_permissionModalHidden false) ;;
        requestMicrophonePermission FromStartCall) st
     | Some _ => startCallResume st
     end).

(** The pending [getUserMedia] promise settles; [startCall] goes on only
    when the permission was granted. *)
Definition getUserMediaSettled (caller : MicCaller) (granted : bool) : Action :=
  if granted then
    microphoneGranted ;;
    match caller with
    | FromStartCall => startCallResume
    | FromGrantButton => skip
    end
  else microphoneDenied.

Definition recognitionStop : Action :=
  onBrowser (fun b =>
    match recognizer b with
    | RecStarted => set_recognizer RecStopping b
    | _ => b
    end).

(** A call either returns or throws, leaving the state as it was at the
    [throw]. *)
Inductive Outcome :=
| Returned (st : State)
| Threw (error : jsstring) (st : State).

Definition stateOf (o : Outcome) : State :=
  match o with Returned st => st | Threw _ st => st end.

Definition stopTrack (t : Track) : Track := mkTrack true (enabled t).

(** The blocks of [endCall], one per [if] of the source. *)
Definition releaseMediaStream : Action :=
  fun st =>
    match mediaStream (this st) with
    | Some h =>
      (onBrowser (fun b => set_streams (adjust (map stopTrack) h (streams b)) b) ;;
       onThis (set_mediaStream None)) st
    | None => st
    end.

Definition closeAudioContext : Action :=
  fun st =>
    match audioContext (this st) with
    | Some h =>
      (onBrowser (fun b => set_contexts (adjust (fun _ => true) h (contexts b)) b) ;;
       onThis (set_audioContext None)) st
    | None => st
    end.

Definition cancelVisualizer : Action :=
  fun st =>
    match visualizerAnimationId (this st) with
    | Some id => cancelAnimationFrame id st
    | None => st
    end.

Definition stopRecognition : Action :=
  fun st =>
    if recognition (this st) && isRecognizing (this st) then recognitionStop st
    else st.

Definition stopTimer : Action :=
  fun st =>
    match timerInterval (this st) with
    | Some id => clearInterval id st
    | None => st
    end.

(** What [endCall] does after [this.synthesis.cancel()]. *)
Definition endCallReset : Action :=
  stopTimer ;;
  onPage (fun p =>
    set_callTimerHidden true
      (set_voiceControlsHidden true
         (set_startCallBtnHidden false
            (set_endCallBtnHidden true
               (set_preCallStateHidden false
                  (set_activeCallStateHidden true p)))))) ;;
  onPage (fun p => set_callTimerText (lit "00:00") (set_conversationPane [] p)) ;;
  onThis (fun o =>
    set_isOnHold false (set_isMuted false (set_messageHistory [] o))) ;;
  updateStatus (lit "Call ended") (lit "inactive") ;;
  updateMicStatus (lit "Not connected") false ;;
  consoleWrite Log [lit "✅ Call ended"].

(** [endCall] up to the call of [this.synthesis.cancel()]. *)
Definition endCallPrefix : Action :=
  consoleWrite Log [lit "📞 Ending call..."] ;;
  onThis (set_isCallActive false) ;;
  releaseMediaStream ;;
  closeAudioContext ;;
  cancelVisualizer ;;
  stopRecognition.

(** [this.synthesis] is [undefined] where the browser has no speech
    synthesis; the call of [cancel] on it throws a [TypeError]. *)
Definition endCall (st : State) : Outcome :=
  let st := endCallPrefix st in
  match speechSynthesis (browser st) with
  | None => Threw (lit "TypeError") st
  | Some _ => Returned ((synthesisCancel ;; endCallReset) st)
  end.

Definition toggleMute : Action :=
  onThis (fun o => set_isMuted (negb (isMuted o)) o) ;;
  (fun st =>
     match mediaStream (this st) with
     | Some h =>
       onBrowser (fun b =>
         set_streams
           (adjust (map (fun t => mkTrack (stopped t) (negb (isMuted (this st)))))
              h (streams b)) b) st
     | None => st
     end) ;;
  (fun st =>
     if isMuted (this st) then
       (onPage (set_muteBtn
          (mkButtonFace (lit "mic-off") (lit "Unmute")
             (lit "rgba(239, 68, 68, 0.2)") (lit "#ef4444"))) ;;
        consoleWrite Log [lit "🔇 Muted"]) st
     else
       (onPage (set_muteBtn (mkButtonFace (lit "mic") (lit "Mute") [] [])) ;;
        consoleWrite Log [lit "🔊 Unmuted"]) st).

Definition toggleHold : Action :=
  onThis (fun o => set_isOnHold (negb (isOnHold o)) o) ;;
  (fun st =>
     if isOnHold (this st) then
       (onPage (fun p =>
          set_holdBtn
            (mkButtonFace (lit "play") (lit "Resume")
               (lit "rgba(251, 191, 36, 0.2)") (color (holdBtn p))) p) ;;
        addMessage (lit "assistant") (lit "Call on hold. Click Resume when ready.") [] ;;
        consoleWrite Log [lit "⏸️ Call on hold"]) st
     else
       (onPage (fun p =>
          set_holdBtn (mkButtonFace (lit "pause") (lit "Hold") [] (color (holdBtn p))) p) ;;
        consoleWrite Log [lit "▶️ Call resumed"]) st).

(** *** Recording *)

(** [this.recognition.start()]: [None] stands for the [InvalidStateError]
    that a started recognizer throws. *)
Definition recognitionStart (st : State) : option State :=
  match recognizer (browser st) with
  | RecIdle => Some (onBrowser (set_recognizer RecStarted) st)
  | _ => None
  end.

Definition startRecording : Action :=
  fun st =>
    if negb (isCallActive (this st)) || isMuted (this st)
       || isOnHold (this st) || isRecording (this st)
    then consoleWrite Log [lit "⚠️ Cannot start recording"] st
    else if negb (recognition (this st)) then
      addMessage (lit "assistant")
        (lit "Speech recognition not available in this browser. Try Chrome or Edge.")
        [] st
    else
      let st :=
        (consoleWrite Log [lit "🎤 Starting recording..."] ;;
         onThis (set_isRecording true) ;;
         onPage (fun p =>
           set_pushToTalkRecording true (set_speakingIndicatorHidden false p))) st in
      match recognitionStart st with
      | Some st' => st'
      | None =>
        (consoleWrite Error [lit "❌ Recognition start error:"; lit "InvalidStateError"] ;;
         recognitionStop ;;
         setTimeout CbRestartRecognition 100) st
      end.

(** The callback of the retry. *)
Definition restartRecognition : Action :=
  fun st =>
    match recognitionStart st with
    | Some st' => st'
    | None => consoleWrite Error [lit "❌ Retry failed:"; lit "InvalidStateError"] st
    end.

Definition stopRecordingUI : Action :=
  onThis (set_isRecording false) ;;
  onPage (fun p =>
    set_pushToTalkRecording false (set_speakingIndicatorHidden true p)).

Definition stopRecording : Action :=
  fun st =>
    if negb (isRecording (this st)) then st
    else
      (consoleWrite Log [lit "🎤 Stopping recording..."] ;;
       stopRecognition ;;
       stopRecordingUI) st.

(** *** Message handling *)

Definition socketEmit (e : Emit) : Action :=
  onBrowser (fun b => set_emitted (emitted b ++ [e]) b).

Definition loadingDots : jsstring :=
  lit "<div class=" ++ [34%N] ++ lit "loading-dots" ++ [34%N]
  ++ lit "><span></span><span></span><span></span></div>".

Definition handleSpeechInput (text : jsstring) : Action :=
  fun st =>
    if negb (truthy text) || negb (truthy (trim text)) then
      consoleWrite Log [lit "⚠️ Empty speech input"] st
    else
      (consoleWrite Log [lit "💬 Processing speech input:"; text] ;;
       addMessage (lit "user") text [] ;;
       (fun st =>
          if socket (this st) && isConnected (this st) then
            (socketEmit (EmVoiceInput text (sessionId (this st)) (now (browser st))) ;;
             addMessage (lit "assistant") loadingDots (lit "loading") ;;
             consoleWrite Log [lit "📤 Sent to server"]) st
          else
            (consoleWrite Error [lit "❌ Socket not connected"] ;;
             addMessage (lit "assistant")
               (lit "Not connected to server. Please refresh the page.") []) st)) st.

(** A message div carries the classes [message], its role and its class
    name. *)
Definition hasLoadingClass (n : MessageNode) : bool :=
  eqb (nodeRole n) (lit "loading") || eqb (nodeClassName n) (lit "loading").

(** How many more times an element of class [loading] is found inside the
    bubble of a message div. *)
Definition innerLoading (rounds : jsstring -> nat) (n : MessageNode) : nat :=
  Nat.sub (rounds (nodeHtml n)) (nodeCut n).

Definition cutBubble (n : MessageNode) : MessageNode :=
  MkMessageNode (nodeRole n) (nodeClassName n) (nodeHtml n) (nodeTime n)
    (S (nodeCut n)).

(** [conversationPane.querySelector('.loading')] returns the first element
    of that class in document order: a message div, or an element inside
    the bubble of a message div before it.  The parent of a message div is
    the pane; the parent of an element inside a bubble is the bubble or a
    part of it. *)
Inductive LoadingMatch :=
| NoLoading
| LoadingDiv
| LoadingInside (pane : list MessageNode).  (* the pane once the parent is removed *)

Fixpoint removeLoadingParent (rounds : jsstring -> nat) (pane : list MessageNode)
  : LoadingMatch :=
  match pane with
  | [] => NoLoading
  | n :: r =>
    if hasLoadingClass n then LoadingDiv
    else if Nat.ltb 0 (innerLoading rounds n) then LoadingInside (cutBubble n :: r)
    else
      match removeLoadingParent rounds r with
      | LoadingInside r' => LoadingInside (n :: r')
      | m => m
      end
  end.

Definition handleVoiceResponse (text : jsstring) (used_rag : bool) : Action :=
  consoleWrite Log [lit "📥 Received response:"; text] ;;
  (* loadingMsg.parentElement.remove() *)
  (fun st =>
     match
       removeLoadingParent (loadingRounds (browser st)) (conversationPane (page st))
     with
     | NoLoading => st
     | LoadingDiv => onPage (set_conversationPaneAttached false) st
     | LoadingInside pane => onPage (set_conversationPane pane) st
     end) ;;
  addMessage (lit "assistant") text [] ;;
  (if used_rag then updateStatus (lit "📚 Answer from documents") (lit "active")
   else updateStatus (lit "🤖 General knowledge") (lit "active")) ;;
  (fun st =>
     if autoSpeak (voiceSettings (this st)) then setTimeout (CbSpeak text) 300 st
     else st).

(** *** Socket and recognizer events *)

Definition onConnect (id : jsstring) : Action :=
  consoleWrite Log [lit "✅ WebSocket connected"] ;;
  onThis (fun o => set_sessionId (Some id) (set_isConnected true o)) ;;
  updateRAGStatus (lit "Connected") true.

Definition onDisconnect (reason : jsstring) : Action :=
  consoleWrite Log [lit "❌ WebSocket disconnected:"; reason] ;;
  onThis (set_isConnected false) ;;
  updateRAGStatus (lit "Disconnected") false.

Definition onConnectionStatus (session_id : jsstring) : Action :=
  consoleWrite Log [lit "📡 Connection status:"; session_id] ;;
  onThis (set_sessionId (Some session_id)).

Definition onSocketError : Action :=
  consoleWrite Error [lit "❌ Socket error:"] ;;
  addMessage (lit "assistant")
    (lit "Sorry, there was an error processing your request.") [].

Definition onConnectError : Action :=
  consoleWrite Error [lit "❌ Connection error:"] ;;
  updateRAGStatus (lit "Connection error") false.

Definition keepAlive : Action :=
  fun st =>
    if isConnected (this st) && socket (this st) then socketEmit EmPing st else st.

Definition onRecognitionStart : Action :=
  consoleWrite Log [lit "🎤 Speech recognition started"] ;;
  onThis (set_isRecognizing true).

Definition onRecognitionResult (transcript : jsstring) : Action :=
  consoleWrite Log [lit "🎤 Recognized"; transcript] ;;
  handleSpeechInput transcript.

Definition onRecognitionError (error : jsstring) : Action :=
  consoleWrite Error [lit "❌ Speech recognition error:"; error] ;;
  (if eqb error (lit "not-allowed") || eqb error (lit "permission-denied") then
     updateMicStatus (lit "Permission denied") false ;;
     onPage (set_permissionModalHidden false)
   else if eqb error (lit "no-speech") then
     consoleWrite Log [lit "⚠️ No speech detected"]
   else if eqb error (lit "network") then
     addMessage (lit "assistant")
       (lit "Network error. Please check your connection.") []
   else skip) ;;
  stopRecordingUI.

Definition onRecognitionEnd : Action :=
  consoleWrite Log [lit "🎤 Speech recognition ended"] ;;
  onThis (set_isRecognizing false) ;;
  stopRecordingUI.

(** *** Health check and voices *)

Definition healthSettled (data : option (bool * option Z)) : Action :=
  match data with
  | Some (rag_ready, vector_count) =>
    consoleWrite Log [lit "📊 System health:"] ;;
    if rag_ready then
      let n := match vector_count with Some v => if v =? 0 then 0 else v | None => 0 end in
      updateRAGStatus (lit "Ready (" ++ toString n ++ lit " docs)") true
    else updateRAGStatus (lit "Not ready") false
  | None =>
    consoleWrite Error [lit "❌ Health check failed:"] ;;
    updateRAGStatus (lit "Error") false
  end.

Definition loadVoicesWhenReady : Action :=
  fun st =>
    match voices (browser st) with
    | [] => setTimeout CbLoadVoices 100 st
    | vs =>
      consoleWrite Log
        [lit "✅ Loaded " ++ toString (Z.of_nat (List.length vs)) ++ lit " voices"] st
    end.

(** *** Construction

    What the page and the browser provide when the script runs. *)
Record Env := mkEnv {
  envPage : Page;
  envSocketIO : bool;            (* the socket.io client is loaded *)
  envSpeechRecognition : bool;   (* window.SpeechRecognition or its webkit form *)
  envSpeechSynthesis : bool;     (* window.speechSynthesis *)
  envAudioContext : bool;
  envVoices : list Voice;
  envNow : Z;
  envLoadingRounds : jsstring -> nat   (* the HTML parser, see [loadingRounds] *)
}.

Definition initializeSocket (e : Env) : Action :=
  consoleWrite Log [lit "🔌 Connecting to WebSocket..."] ;;
  if envSocketIO e then (fun st => snd (setInterval IvKeepAlive 30000 st))
  else
    consoleWrite Error [lit "❌ Socket initialization failed:"] ;;
    updateRAGStatus (lit "Failed to connect") false.

Definition setupSpeechRecognition (e : Env) : Action :=
  if envSpeechRecognition e then
    consoleWrite Log [lit "✅ Speech recognition initialized"]
  else
    consoleWrite Warn [lit "⚠️ Speech recognition not supported in this browser"] ;;
    updateMicStatus (lit "Not supported") false.

Definition checkSystemStatus : Action :=
  onBrowser (fun b => set_promises (promises b ++ [PHealth]) b).

Definition loadVoices : Action :=
  fun st =>
    match speechSynthesis (browser st) with
    | Some _ => loadVoicesWhenReady st
    | None => st
    end.

(** [new VoiceCallSystem()]: the field defaults of the constructor, then
    [init].  [setupElements] and [setupEventListeners] change no state: the
    page is [envPage], and the listeners are the cases of [step]. *)
Definition construct (e : Env) : State :=
  (consoleWrite Log [lit "🚀 Initializing Musab AI Voice System..."] ;;
   initializeSocket e ;;
   setupSpeechRecognition e ;;
   checkSystemStatus ;;
   loadVoices ;;
   consoleWrite Log [lit "✅ System initialized"])
    (mkState
       (mkVoiceCallSystem (envSocketIO e) false None None false None
          (envSpeechRecognition e) false None false false false false None None
          None [] (mkVoiceSettings 1 1 true (lit "en-US")))
       (envPage e)
       (mkBrowser [] [] (envAudioContext e)
          (if envSpeechSynthesis e then Some [] else None) (envVoices e)
          RecIdle [] [] [] 1%positive [] [] [] (envNow e)
          (envLoadingRounds e))).

(** *** The event loop *)

Inductive Event :=
| EvStartCallClick
| EvEndCallClick
| EvMuteClick
| EvHoldClick
| EvPushToTalkDown                 (* mousedown, touchstart *)
| EvPushToTalkUp                   (* mouseup, touchend *)
| EvGrantPermissionClick
| EvCancelPermissionClick
| EvSettingsClick
| EvCloseSettingsClick
| EvVoiceSpeedInput (value : jsstring) (parsed : Q)
| EvVoicePitchInput (value : jsstring) (parsed : Q)
| EvAutoSpeakChange (checked : bool)
| EvSocketConnect (id : jsstring)
| EvSocketDisconnect (reason : jsstring)
| EvConnectionStatus (session_id : jsstring)
| EvVoiceResponse (text : jsstring) (used_rag : bool)
| EvSocketError
| EvConnectError
| EvRecognitionStart
| EvRecognitionResult (transcript : jsstring)
| EvRecognitionError (error : jsstring)
| EvRecognitionEnd
| EvGetUserMediaSettled (k : nat) (granted : bool)
| EvHealthSettled (k : nat) (data : option (bool * option Z))
| EvTimeout (k : nat)
| EvInterval (id : positive)
| EvAnimationFrame (id : positive)
| EvUtteranceEnd
| EvVoicesChanged (vs : list Voice)
| EvClock (t : Z).

Fixpoint removeNth {A : Type} (n : nat) (l : list A) : list A :=
  match l, n with
  | [], _ => []
  | _ :: r, O => r
  | x :: r, S n' => x :: removeNth n' r
  end.

Definition runCallback (cb : Callback) : Action :=
  match cb with
  | CbRetryStartCall => startCall
  | CbSpeak t => speak t
  | CbRestartRecognition => restartRecognition
  | CbScroll => skip
  | CbLoadVoices => loadVoicesWhenReady
  end.

Definition runInterval (iv : Interval) : Action :=
  match iv with
  | IvKeepAlive => keepAlive
  | IvCallTimer => timerTick
  end.

(** One turn of the event loop.  An event with no listener or no pending
    task behind it leaves the state alone; an exception that escapes a
    handler leaves the state as it was when thrown. *)
Definition step (ev : Event) : Action :=
  fun st =>
    match ev with
    | EvStartCallClick => startCall st
    | EvEndCallClick => stateOf (endCall st)
    | EvMuteClick => toggleMute st
    | EvHoldClick => toggleHold st
    | EvPushToTalkDown => startRecording st
    | EvPushToTalkUp => stopRecording st
    | EvGrantPermissionClick =>
      (onPage (set_permissionModalHidden true) ;;
       requestMicrophonePermission FromGrantButton) st
    | EvCancelPermissionClick =>
      (onPage (set_permissionModalHidden true) ;;
       updateStatus (lit "Microphone access denied") (lit "inactive")) st
    | EvSettingsClick => onPage (set_settingsModalHidden false) st
    | EvCloseSettingsClick => onPage (set_settingsModalHidden true) st
    | EvVoiceSpeedInput value parsed =>
      (onThis (fun o =>
         set_voiceSettings
           (mkVoiceSettings parsed (pitch (voiceSettings o))
              (autoSpeak (voiceSettings o)) (language (voiceSettings o))) o) ;;
       onPage (fun p =>
         set_speedValue (option_map (fun _ => value) (speedValue p)) p)) st
    | EvVoicePitchInput value parsed =>
      (onThis (fun o =>
         set_voiceSettings
           (mkVoiceSettings (rate (voiceSettings o)) parsed
              (autoSpeak (voiceSettings o)) (language (voiceSettings o))) o) ;;
       onPage (fun p =>
         set_pitchValue (option_map (fun _ => value) (pitchValue p)) p)) st
    | EvAutoSpeakChange checked =>
      onThis (fun o =>
        set_voiceSettings
          (mkVoiceSettings (rate (voiceSettings o)) (pitch (voiceSettings o))
             checked (language (voiceSettings o))) o) st
    | EvSocketConnect id => if socket (this st) then onConnect id st else st
    | EvSocketDisconnect reason =>
      if socket (this st) then onDisconnect reason st else st
    | EvConnectionStatus session_id =>
      if socket (this st) then onConnectionStatus session_id st else st
    | EvVoiceResponse text used_rag =>
      if socket (this st) then
        (consoleWrite Log [lit "🎤 Received voice response"] ;;
         handleVoiceResponse text used_rag) st
      else st
    | EvSocketError => if socket (this st) then onSocketError st else st
    | EvConnectError => if socket (this st) then onConnectError st else st
    | EvRecognitionStart =>
      if recognition (this st) then onRecognitionStart st else st
    | EvRecognitionResult transcript =>
      if recognition (this st) then onRecognitionResult transcript st else st
    | EvRecognitionError error =>
      if recognition (this st) then onRecognitionError error st else st
    | EvRecognitionEnd =>
      if recognition (this st) then
        (onBrowser (set_recognizer RecIdle) ;; onRecognitionEnd) st
      else st
    | EvGetUserMediaSettled k granted =>
      match nth_error (promises (browser st)) k with
      | Some (PGetUserMedia caller) =>
        (onBrowser (fun b => set_promises (removeNth k (promises b)) b) ;;
         getUserMediaSettled caller granted) st
      | _ => st
      end
    | EvHealthSettled k data =>
      match nth_error (promises (browser st)) k with
      | Some PHealth =>
        (onBrowser (fun b => set_promises (removeNth k (promises b)) b) ;;
         healthSettled data) st
      | _ => st
      end
    | EvTimeout k =>
      match nth_error (timeouts (browser st)) k with
      | Some (_, cb) =>
        (onBrowser (fun b => set_timeouts (removeNth k (timeouts b)) b) ;;
         runCallback cb) st
      | None => st
      end
    | EvInterval id =>
      match find (fun e => Pos.eqb (fst e) id) (intervals (browser st)) with
      | Some (_, (_, iv)) => runInterval iv st
      | None => st
      end
    | EvAnimationFrame id =>
      if existsb (Pos.eqb id) (frames (browser st)) then
        (cancelAnimationFrame id ;; draw) st
      else st
    | EvUtteranceEnd =>
      match speechSynthesis (browser st) with
      | Some (_ :: q) =>
        (onBrowser (set_speechSynthesis (Some q)) ;;
         consoleWrite Log [lit "🔊 Speech ended"]) st
      | _ => st
      end
    | EvVoicesChanged vs =>
      (onBrowser (set_voices vs) ;; loadVoices) st
    | EvClock t => onBrowser (set_now t) st
    end.

Definition run (evs : list Event) : Action := fun st => fold_left (fun s e => step e s) evs st.

(** The states the page can be in after the script was loaded in some
    environment. *)
Definition reachable (st : State) : Prop :=
  exists e evs, st = run evs (construct e).

(** *** A page, two environments, and the streams still live *)

Definition sampleStatus : StatusEl := mkStatusEl (Some []) (Some []).

(** A page with every element, as it is before a call. *)
Definition samplePage : Page :=
  mkPage true (Some sampleStatus) (Some sampleStatus) (Some sampleStatus)
    true true false true false true true true true false (lit "00:00") [] true
    (mkButtonFace (lit "mic") (lit "Mute") [] [])
    (mkButtonFace (lit "pause") (lit "Hold") [] [])
    (Some (lit "1.0")) (Some (lit "1.0")).

(** No text of the traces below holds an element of class [loading]. *)
Definition plainTexts : jsstring -> nat := fun _ => 0%nat.

(** A browser with every API the class uses ... *)
Definition sampleEnv : Env :=
  mkEnv samplePage true true true true [] 1700000000000 plainTexts.

(** ... and one without speech synthesis. *)
Definition silentEnv : Env :=
  mkEnv samplePage true true false true [] 1700000000000 plainTexts.

(** The page as [endCall] leaves it. *)
Definition idlePage (p : Page) : Prop :=
  activeCallStateHidden p = true /\ preCallStateHidden p = false
  /\ endCallBtnHidden p = true /\ startCallBtnHidden p = false
  /\ voiceControlsHidden p = true /\ callTimerHidden p = true
  /\ conversationPane p = [] /\ callTimerText p = lit "00:00".

(** The user presses Start twice while the socket is still connecting
    (closing the permission modal in between); both retries run once it is
    connected. *)
Definition startedTwice : State :=
  run [EvStartCallClick; EvGetUserMediaSettled 1 true;
       EvCancelPermissionClick; EvStartCallClick;
       EvSocketConnect (lit "s1"); EvTimeout 2; EvTimeout 3]
    (construct sampleEnv).

(** Start is pressed twice before the microphone request is answered, the
    modal being closed in between. *)
Definition askedTwice : State :=
  run [EvStartCallClick; EvCancelPermissionClick; EvStartCallClick;
       EvGetUserMediaSettled 1 true; EvGetUserMediaSettled 1 true]
    (construct sampleEnv).

(** A call in a browser without speech synthesis, muted by the user. *)
Definition silentCall : State :=
  run [EvSocketConnect (lit "s1"); EvStartCallClick;
       EvGetUserMediaSettled 1 true; EvCancelPermissionClick; EvMuteClick]
    (construct silentEnv).

(** During a call the permission modal that [startCall] opened is still
    shown; the user presses its grant button. *)
Definition inCall : State :=
  run [EvSocketConnect (lit "s1"); EvStartCallClick;
       EvGetUserMediaSettled 1 true]
    (construct sampleEnv).

Definition regranted : State :=
  run [EvGrantPermissionClick; EvGetUserMediaSettled 1 true] inCall.

(** [startCall] put the call off: the flag is as it was, the wait message
    was added and a retry is pending (after the scroll of the message). *)
Definition deferred (st st' : State) : Prop :=
  isCallActive (this st') = isCallActive (this st)
  /\ timeouts (browser st') =
     timeouts (browser st) ++ [(100, CbScroll); (2000, CbRetryStartCall)]
  /\ messageHistory (this st') =
     messageHistory (this st)
     ++ [mkMessage (lit "assistant") (lit "Connecting to server... Please wait.")
           (now (browser st))]
  /\ intervals (browser st') = intervals (browser st).

(** A stream is live while one of its tracks has not been stopped. *)
Definition liveStream (s : MediaStream) : bool :=
  existsb (fun t => negb (stopped t)) s.

Definition liveStreams (st : State) : list MediaStream :=
  filter liveStream (streams (browser st)).

(** A press of the button during a call, heard by the recognizer. *)
Definition listening : State :=
  run [EvSocketConnect (lit "s1"); EvStartCallClick;
       EvGetUserMediaSettled 1 true; EvCancelPermissionClick;
       EvPushToTalkDown; EvRecognitionStart]
    (construct sampleEnv).

(** The button is released before the recognizer reports its start, and
    pressed again. *)
Definition pressedAgain : State :=
  run [EvSocketConnect (lit "s1"); EvStartCallClick;
       EvGetUserMediaSettled 1 true; EvCancelPermissionClick;
       EvPushToTalkDown; EvPushToTalkUp; EvPushToTalkDown]
    (construct sampleEnv).

(** [speak] called for each text of a list in turn. *)
Definition speakAll (ts : list jsstring) : Action :=
  fun st => fold_left (fun s t => speak t s) ts st.

(** *** Two sentences of the specification, as they are written *)

(** "Recognition errors for no speech detected are logged and ignored (no
    state change)", the recording flag included. *)
Definition noSpeechChangesNothing : Prop :=
  forall st, reachable st ->
    this (step (EvRecognitionError (lit "no-speech")) st) = this st.

(** "A call-start attempt while the transport is not yet connected is
    deferred and retried after a fixed delay": whatever answer the
    microphone request gets, a retry of [startCall] is pending afterwards. *)
Definition disconnectedStartIsRetried : Prop :=
  forall st k granted, reachable st ->
    isConnected (this st) = false ->
    nth_error (promises (browser (step EvStartCallClick st))) k
    = Some (PGetUserMedia FromStartCall) ->
    In CbRetryStartCall
      (map snd
         (timeouts
            (browser (run [EvStartCallClick; EvGetUserMediaSettled k granted] st)))).

(** "A startCall attempt made while the transport is not connected does
    not activate the call and leaves the call-active flag false until a
    retry finds the transport connected": no retry has run when the socket
    connects and the microphone request of the attempt is granted, so the
    flag is still false then. *)
Definition disconnectedStartStaysInactive : Prop :=
  forall st id k, reachable st ->
    isConnected (this st) = false -> isCallActive (this st) = false ->
    nth_error (promises (browser (step EvStartCallClick st))) k
    = Some (PGetUserMedia FromStartCall) ->
    isCallActive
      (this (run [EvStartCallClick; EvSocketConnect id;
                  EvGetUserMediaSettled k true] st))
    = false.

(** *** What every event keeps *)

(** The handle held, if any, is that of a stream with a live track. *)
Definition heldStreamLive (st : State) : Prop :=
  forall h, mediaStream (this st) = Some h ->
    exists ts, nth_error (streams (browser st)) h = Some ts
               /\ liveStream ts = true.

(** The entry that [addMessage] stores for the div it appends. *)
Definition messageOfNode (n : MessageNode) : Message :=
  mkMessage (nodeRole n) (nodeHtml n) (nodeTime n).

Definition paneMirrorsHistory (st : State) : Prop :=
  map messageOfNode (conversationPane (page st)) = messageHistory (this st).

(** At most one utterance is outstanding. *)
Definition quiet (st : State) : Prop :=
  (List.length (outstanding st) <= 1)%nat.

(** Interval ids in use are below the next id to be given out, and the id
    in [timerInterval] is that of a call timer. *)
Definition timerKnown (st : State) : Prop :=
  (forall e, In e (intervals (browser st)) ->
     (fst e < nextHandle (browser st))%positive)
  /\ (forall id p iv, timerInterval (this st) = Some id ->
        In (id, (p, iv)) (intervals (browser st)) -> iv = IvCallTimer).

(** While connected the session id is set, and every [voice_input] sent
    has a text that is not blank and a session id. *)
Definition sentWellFormed (st : State) : Prop :=
  (isConnected (this st) = true -> sessionId (this st) <> None)
  /\ (forall t s ts, In (EmVoiceInput t s ts) (emitted (browser st)) ->
        trim t <> [] /\ s <> None).

(** The names that [speak] prefers among the English voices. *)
Definition feminine (v : Voice) : bool :=
  includes (lit "Female") (voiceName v) || includes (lit "Samantha") (voiceName v).

(** The keep-alive interval that [initializeSocket] installs is the first
    timer of the page, so it has the first handle. *)
Definition keepAliveInstalled (st : State) : Prop :=
  In (1%positive, (30000, IvKeepAlive)) (intervals (browser st)).

(** The page just loaded, with the socket connected. *)
Definition connected : State :=
  step (EvSocketConnect (lit "s1")) (construct sampleEnv).

(** The call of [inCall] after the user closed the permission modal. *)
Definition talking : State := step EvCancelPermissionClick inCall.

End VoiceCall.

(* ------------------------------------------------------------------ *)
(** ** The document ingestion form ([add_data.js]) *)

Module AddData.

Import JsString.
Local Open Scope Z_scope.

(** The alert that [showMessage] writes into the response element. *)
Record Alert := mkAlert {
  alertClass : jsstring;
  alertIcon : jsstring;
  alertText : jsstring
}.

Record Request := mkRequest {
  url : jsstring;
  method : jsstring;
  data : jsstring        (* the field of the JSON body *)
}.

Inductive Task :=
| TaskClearResponse        (* responseDiv.innerHTML = '' *)
| TaskLoadStats.           (* window.loadStats, when defined *)

(** The form, its submit button and what the handler has asked of the
    browser. *)
Record Form := mkForm {
  dataInput : jsstring;              (* dataInput.value *)
  response : option Alert;           (* None: the element is empty *)
  submitDisabled : bool;
  submitHtml : jsstring;
  requests : list Request;           (* calls of fetch *)
  scheduled : list (Z * Task)
}.

Definition set_dataInput (v : jsstring) (f : Form) : Form :=
  mkForm v (response f) (submitDisabled f) (submitHtml f) (requests f) (scheduled f).
Definition set_response (v : option Alert) (f : Form) : Form :=
  mkForm (dataInput f) v (submitDisabled f) (submitHtml f) (requests f) (scheduled f).
Definition set_submit (d : bool) (h : jsstring) (f : Form) : Form :=
  mkForm (dataInput f) (response f) d h (requests f) (scheduled f).
Definition set_requests (v : list Request) (f : Form) : Form :=
  mkForm (dataInput f) (response f) (submitDisabled f) (submitHtml f) v (scheduled f).
Definition set_scheduled (v : list (Z * Task)) (f : Form) : Form :=
  mkForm (dataInput f) (response f) (submitDisabled f) (submitHtml f) (requests f) v.

Definition q (s : jsstring) : jsstring := [34%N] ++ s ++ [34%N].

Definition showMessage (text type : jsstring) (f : Form) : Form :=
  let success := eqb type (lit "success") in
  let alertClass :=
    if success then lit "bg-green-500/10 border-green-500/30 text-green-400"
    else lit "bg-red-500/10 border-red-500/30 text-red-400" in
  let icon :=
    if success then
      lit "<i data-lucide=" ++ q (lit "check-circle") ++ lit " class="
      ++ q (lit "w-5 h-5") ++ lit "></i>"
    else
      lit "<i data-lucide=" ++ q (lit "alert-circle") ++ lit " class="
      ++ q (lit "w-5 h-5") ++ lit "></i>" in
  let f := set_response (Some (mkAlert alertClass icon text)) f in
  if success then set_scheduled (scheduled f ++ [(5000, TaskClearResponse)]) f else f.

Definition tooShort : jsstring :=
  lit "Document is too short. Please provide at least 50 characters.".

Definition addingHtml : jsstring :=
  lit "<i data-lucide=" ++ q (lit "loader") ++ lit " class="
  ++ q (lit "w-5 h-5 inline mr-2 animate-spin") ++ lit "></i>Adding...".

Definition addDocumentHtml : jsstring :=
  lit "<i data-lucide=" ++ q (lit "plus-circle") ++ lit " class="
  ++ q (lit "w-5 h-5 inline mr-2") ++ lit "></i>Add Document".

(** The submit handler up to its [await fetch(...)]. *)
Definition onSubmit (f : Form) : Form :=
  let data := trim (dataInput f) in
  if negb (truthy data) then
    showMessage (lit "Please enter some document content.") (lit "error") f
  else if length data <? 50 then showMessage tooShort (lit "error") f
  else
    set_requests
      (requests f ++ [mkRequest (lit "/api/add_data") (lit "POST") data])
      (set_submit true addingHtml f).

(** How the request ends: [fetch] rejects, or it resolves with a status and
    a body that [response.json()] parses or rejects.  A field of the parsed
    value is given by the string it prints as, [None] when it is absent (as
    for a number, a string or an array).  The body [null] parses, but
    reading a field of it throws a [TypeError]. *)
Inductive Body :=
| Json (nodes_added error : option jsstring)   (* any JSON value but null *)
| JsonNull (message : jsstring)                (* null; the message of the TypeError *)
| NotJson (message : jsstring).                (* the message of the SyntaxError *)

Inductive FetchOutcome :=
| Rejected (message : jsstring)
| Resolved (ok : bool) (body : Body).

Definition printed (v : option jsstring) : jsstring :=
  match v with Some s => s | None => lit "undefined" end.

(** The [try], [catch] and [finally] blocks once the request has ended. *)
Definition onSettled (out : FetchOutcome) (f : Form) : Form :=
  let networkError m := showMessage (lit "❌ Network Error: " ++ m) (lit "error") in
  let f :=
    match out with
    | Rejected m => networkError m f
    | Resolved _ (NotJson m) => networkError m f
    | Resolved _ (JsonNull m) => networkError m f
    | Resolved true (Json nodes_added _) =>
      let f :=
        showMessage
          (lit "✅ Success! Added " ++ printed nodes_added
           ++ lit " document chunk(s) to knowledge base.") (lit "success") f in
      let f := set_dataInput [] f in
      set_scheduled (scheduled f ++ [(1000, TaskLoadStats)]) f
    | Resolved false (Json _ error) =>
      showMessage (lit "❌ Error: " ++ printed error) (lit "error") f
    end in
  set_submit false addDocumentHtml f.

(** A submission that passes the two checks of the handler. *)
Definition valid (f : Form) : Prop :=
  trim (dataInput f) <> [] /\ 50 <= length (trim (dataInput f)).

Definition emptyForm (text : jsstring) : Form :=
  mkForm text None false addDocumentHtml [] [].

(** The callbacks of the two timeouts.  [window.loadStats] belongs to
    another script and changes nothing of the form. *)
Definition runTask (t : Task) (f : Form) : Form :=
  match t with
  | TaskClearResponse => set_response None f
  | TaskLoadStats => f
  end.

End AddData.

(* ------------------------------------------------------------------ *)
(** ** Properties of the voice call system *)

Module VoiceCallFacts.

Import JsString VoiceCall.
Local Open Scope Z_scope.

(** [exec] runs the handlers in the goal: it unfolds the actions, the
    setters and the projections, and leaves strings and list functions
    folded.  Fields that a handler tests are destructed before it is used. *)
Ltac exec :=
  lazy beta iota zeta delta [
    stopped voiceName uText uRate uPitch uVolume uLang uVoice role rate pitch
    autoSpeak language stText stDot nodeRole nodeClassName nodeHtml nodeTime
    icon label background color socket isConnected mediaStream audioContext
    analyser visualizerAnimationId recognition isRecognizing currentUtterance
    isCallActive isMuted isOnHold isRecording callStartTime timerInterval
    sessionId messageHistory voiceSettings visualizerCanvas callStatus
    ragStatus micStatus permissionModalHidden settingsModalHidden
    preCallStateHidden activeCallStateHidden startCallBtnHidden
    endCallBtnHidden voiceControlsHidden callTimerHidden
    speakingIndicatorHidden pushToTalkRecording callTimerText
    conversationPane conversationPaneAttached muteBtn holdBtn speedValue
    pitchValue streams contexts audioContextAvailable speechSynthesis voices
    recognizer timeouts intervals frames nextHandle promises emitted console
    now this page browser envPage envSocketIO envSpeechRecognition
    envSpeechSynthesis envAudioContext envVoices envNow set_isConnected
    set_mediaStream set_audioContext set_analyser set_visualizerAnimationId
    set_isRecognizing set_currentUtterance set_isCallActive set_isMuted
    set_isOnHold set_isRecording set_callStartTime set_timerInterval
    set_sessionId set_messageHistory set_voiceSettings set_callStatus
    set_ragStatus set_micStatus set_permissionModalHidden
    set_settingsModalHidden set_preCallStateHidden set_activeCallStateHidden
    set_startCallBtnHidden set_endCallBtnHidden set_voiceControlsHidden
    set_callTimerHidden set_speakingIndicatorHidden set_pushToTalkRecording
    set_callTimerText set_conversationPane set_conversationPaneAttached
    set_muteBtn set_holdBtn set_speedValue set_pitchValue set_streams
    set_contexts set_speechSynthesis set_voices set_recognizer set_timeouts
    set_intervals set_frames set_nextHandle set_promises set_emitted
    set_console set_now andThen skip onThis onPage onBrowser consoleWrite
    setTimeout updateStatus updateRAGStatus updateMicStatus addMessage
    synthesisCancel setInterval clearInterval startTimer
    requestAnimationFrame cancelAnimationFrame draw visualizeAudio
    setupAudioVisualization requestMicrophonePermission microphoneGranted
    microphoneDenied startCallResume startCall getUserMediaSettled
    recognitionStop stateOf stopTrack endCallReset endCall toggleMute
    toggleHold recognitionStart startRecording restartRecognition
    stopRecordingUI stopRecording socketEmit handleSpeechInput
    handleVoiceResponse onConnect onDisconnect onConnectionStatus
    onSocketError onConnectError keepAlive onRecognitionStart
    onRecognitionResult onRecognitionError onRecognitionEnd healthSettled
    loadVoicesWhenReady initializeSocket setupSpeechRecognition
    checkSystemStatus loadVoices fst snd negb andb orb option_map
  ].

(** *** Strings *)

Lemma trimStart_whitespace (s : jsstring) :
  Forall (fun c => isWhiteSpace c = true) s -> trimStart s = [].
Proof.
  induction 1 as [|c s Hc _ IH]; simpl; [reflexivity|].
  now rewrite Hc.
Qed.

Lemma trim_whitespace (s : jsstring) :
  Forall (fun c => isWhiteSpace c = true) s -> trim s = [].
Proof.
  intros H. unfold trim, trimEnd. now rewrite (trimStart_whitespace H).
Qed.

(** *** Push to talk *)

(** C3. In every state in which the call is inactive, or muted, or on hold,
    or already recording, [startRecording] is a no-op: the object and the
    page keep every field, the recognizer is not started, nothing is
    scheduled, and the call returns (it only writes a line to the console). *)
Theorem startRecording_refused (st : State) :
  isCallActive (this st) = false \/ isMuted (this st) = true
  \/ isOnHold (this st) = true \/ isRecording (this st) = true ->
  let st' := startRecording st in
  this st' = this st
  /\ page st' = page st
  /\ recognizer (browser st') = recognizer (browser st)
  /\ timeouts (browser st') = timeouts (browser st)
  /\ browser st' =
     set_console
       (console (browser st) ++ [(Log, [lit "⚠️ Cannot start recording"])])
       (browser st).
Proof.
  intros H st'.
  assert (E : st' = consoleWrite Log [lit "⚠️ Cannot start recording"] st).
  { subst st'. unfold startRecording.
    destruct (isCallActive (this st)), (isMuted (this st)),
      (isOnHold (this st)), (isRecording (this st)); try reflexivity.
    destruct H as [H|[H|[H|H]]]; discriminate. }
  rewrite E. repeat split.
Qed.

Lemma startRecording_refused_witness :
  let st := run [EvPushToTalkDown] (construct sampleEnv) in
  isCallActive (this st) = false
  /\ this (startRecording st) = this st.
Proof.
  split; [reflexivity|].
  apply (startRecording_refused (run [EvPushToTalkDown] (construct sampleEnv))).
  left. reflexivity.
Defined.

(** The test is on [isRecording], not on the recognizer: after an early
    release the flag is clear while the recognizer still runs, and a new
    press stops it and schedules a restart. *)
Example restart_scheduled_after_early_release :
  recognizer (browser pressedAgain) = RecStopping
  /\ isRecording (this pressedAgain) = true
  /\ In (100, CbRestartRecognition) (timeouts (browser pressedAgain)).
Proof. vm_compute. repeat split. tauto. Qed.

(** *** Speech input *)

(** C10. A transcript that is empty or all whitespace is discarded: no
    message is added to the history or to the pane, nothing is sent over
    the socket, no placeholder is shown and nothing is scheduled. *)
Theorem handleSpeechInput_blank (st : State) (text : jsstring) :
  Forall (fun c => isWhiteSpace c = true) text ->
  let st' := handleSpeechInput text st in
  this st' = this st
  /\ page st' = page st
  /\ messageHistory (this st') = messageHistory (this st)
  /\ conversationPane (page st') = conversationPane (page st)
  /\ emitted (browser st') = emitted (browser st)
  /\ timeouts (browser st') = timeouts (browser st)
  /\ browser st' =
     set_console (console (browser st) ++ [(Log, [lit "⚠️ Empty speech input"])])
       (browser st).
Proof.
  intros H st'.
  assert (E : st' = consoleWrite Log [lit "⚠️ Empty speech input"] st).
  { subst st'. unfold handleSpeechInput. rewrite (trim_whitespace H).
    now rewrite orb_true_r. }
  rewrite E. repeat split.
Qed.

Lemma handleSpeechInput_blank_witness :
  messageHistory (this (handleSpeechInput (lit "   ") (construct sampleEnv)))
  = messageHistory (this (construct sampleEnv)).
Proof.
  apply (handleSpeechInput_blank (construct sampleEnv) (text := lit "   ")).
  repeat constructor.
Defined.

(** *** Recognition errors *)

(** C4, as stated, fails: while the user holds the button the recording
    flag is set, and the error handler clears it on a no-speech error too. *)
Lemma no_speech_clears_recording_flag : ~ noSpeechChangesNothing.
Proof.
  intros H.
  assert (R : reachable listening) by (eexists _, _; reflexivity).
  apply H in R. apply (f_equal isRecording) in R.
  vm_compute in R. discriminate.
Qed.

(** C4, amended. On a no-speech error the handler writes two lines to the
    console and runs [stopRecordingUI]: the recording flag is cleared, the
    speaking indicator is hidden and the button loses its recording class.
    Nothing else changes: no message is added, the permission modal is not
    shown, and the other fields of the call are as before. *)
Theorem no_speech_error_only_stops_recording (st : State) :
  let st' := onRecognitionError (lit "no-speech") st in
  this st' = set_isRecording false (this st)
  /\ page st' =
     set_pushToTalkRecording false (set_speakingIndicatorHidden true (page st))
  /\ browser st' =
     set_console
       ((console (browser st)
         ++ [(Error, [lit "❌ Speech recognition error:"; lit "no-speech"])])
        ++ [(Log, [lit "⚠️ No speech detected"])])
       (browser st)
  /\ messageHistory (this st') = messageHistory (this st)
  /\ conversationPane (page st') = conversationPane (page st)
  /\ permissionModalHidden (page st') = permissionModalHidden (page st)
  /\ isCallActive (this st') = isCallActive (this st)
  /\ isMuted (this st') = isMuted (this st)
  /\ isOnHold (this st') = isOnHold (this st)
  /\ isRecording (this st') = false.
Proof.
  intros st'. subst st'. unfold onRecognitionError.
  replace (eqb (lit "no-speech") (lit "not-allowed")) with false
    by (vm_compute; reflexivity).
  replace (eqb (lit "no-speech") (lit "permission-denied")) with false
    by (vm_compute; reflexivity).
  replace (eqb (lit "no-speech") (lit "no-speech")) with true
    by (vm_compute; reflexivity).
  destruct st as [o p b]. exec. repeat split.
Qed.

(** *** Speech synthesis *)

Lemma speak_outstanding (st : State) (t : jsstring) :
  forall u, In u (outstanding (speak t st)) ->
    outstanding (speak t st) = [u]
    /\ uText u = cleanText t
    /\ currentUtterance (this (speak t st)) = Some u.
Proof.
  unfold speak, outstanding.
  destruct st as [o p b]. destruct b. cbn [browser speechSynthesis].
  destruct speechSynthesis0 as [q|]; [|intros u []].
  destruct (truthy (trim (cleanText t))); cbn [negb].
  - destruct (preferredVoice voices0) eqn:V; exec; rewrite V; exec;
      intros u [<-|[]]; repeat split.
  - exec. intros u [].
Qed.

Lemma speak_enqueues (st : State) (t : jsstring) :
  speechSynthesis (browser st) <> None -> trim (cleanText t) <> [] ->
  exists u, outstanding (speak t st) = [u].
Proof.
  intros Hs Ht. unfold speak, outstanding.
  destruct st as [o p b]. destruct b. cbn [browser speechSynthesis] in *.
  destruct speechSynthesis0 as [q|]; [|congruence].
  assert (T : truthy (trim (cleanText t)) = true)
    by (destruct (trim (cleanText t)); [congruence|reflexivity]).
  rewrite T. cbn [negb].
  destruct (preferredVoice voices0) eqn:V; exec; rewrite V; exec;
    eexists; reflexivity.
Qed.

Lemma speak_blank (st : State) (t : jsstring) :
  trim (cleanText t) = [] -> outstanding (speak t st) = [].
Proof.
  intros Ht. unfold speak, outstanding.
  destruct st as [o p b]. destruct b. cbn [browser speechSynthesis].
  destruct speechSynthesis0 as [q|]; [|reflexivity].
  rewrite Ht. reflexivity.
Qed.

Lemma speak_keeps_synthesis (st : State) (t : jsstring) :
  speechSynthesis (browser st) <> None ->
  speechSynthesis (browser (speak t st)) <> None.
Proof.
  unfold speak. destruct st as [o p b]. destruct b.
  cbn [browser speechSynthesis].
  destruct speechSynthesis0 as [q|]; [intros _|congruence].
  destruct (truthy (trim (cleanText t))); cbn [negb].
  - destruct (preferredVoice voices0) eqn:V; exec; rewrite V; exec; discriminate.
  - exec. discriminate.
Qed.

Lemma speakAll_keeps_synthesis (ts : list jsstring) (st : State) :
  speechSynthesis (browser st) <> None ->
  speechSynthesis (browser (speakAll ts st)) <> None.
Proof.
  unfold speakAll. revert st.
  induction ts as [|t ts IH]; intros st H; [exact H|].
  cbn [fold_left]. apply IH. apply speak_keeps_synthesis. exact H.
Qed.

(** C5. [speak] cancels what the synthesizer holds before it enqueues the
    new utterance.  After any sequence of calls at most one utterance is
    outstanding, and it is the one made from the text of the latest call.
    Where the browser has speech synthesis and the cleaned text is not
    blank, the latest call does enqueue: exactly its utterance is
    outstanding, whatever the earlier calls left; for a blank text the
    queue is left empty. *)
Theorem speak_supersedes (st : State) (ts : list jsstring) (t : jsstring) :
  let st' := speak t (speakAll ts st) in
  (List.length (outstanding st') <= 1)%nat
  /\ (forall u, In u (outstanding st') ->
        uText u = cleanText t /\ currentUtterance (this st') = Some u)
  /\ (speechSynthesis (browser st) <> None -> trim (cleanText t) <> [] ->
      exists u, outstanding st' = [u] /\ uText u = cleanText t
                /\ currentUtterance (this st') = Some u)
  /\ (trim (cleanText t) = [] -> outstanding st' = []).
Proof.
  intros st'. subst st'.
  pose proof (@speakAll_keeps_synthesis ts st) as K.
  revert K. generalize (speakAll ts st). intros s K.
  pose proof (speak_outstanding s t) as H.
  split; [|split; [|split]].
  - destruct (outstanding (speak t s)) as [|u q]; [simpl; lia|].
    destruct (H u (or_introl eq_refl)) as [E _].
    injection E as ->. simpl; lia.
  - intros v Hv. destruct (H v Hv) as [_ Hu]. exact Hu.
  - intros Hs Ht. destruct (speak_enqueues s t (K Hs) Ht) as [u E].
    exists u. split; [exact E|]. apply H. rewrite E. left. reflexivity.
  - apply speak_blank.
Qed.

Lemma speak_supersedes_witness :
  exists u,
    outstanding (speak (lit "Second") (speakAll [lit "First"] connected)) = [u]
    /\ uText u = cleanText (lit "Second")
    /\ currentUtterance
         (this (speak (lit "Second") (speakAll [lit "First"] connected)))
       = Some u.
Proof.
  destruct (@speak_supersedes connected [lit "First"] (lit "Second"))
    as (_ & _ & H & _).
  apply H; vm_compute; discriminate.
Defined.

(** *** Timer *)

Lemma padStart0_twoDigits (n : Z) :
  0 <= n < 100 -> padStart0 2 (toString n) = twoDigits n.
Proof.
  intros H. rewrite <- (Z2Nat.id n) by lia.
  assert (L : (Z.to_nat n < 100)%nat) by lia.
  revert L. generalize (Z.to_nat n). intros k L.
  do 100 (destruct k as [|k]; [vm_compute; reflexivity|]).
  lia.
Qed.

Lemma formatElapsed_digits (d : Z) :
  0 <= d < 6000000 ->
  formatElapsed d = twoDigits (d / 60000) ++ lit ":" ++ twoDigits (d / 1000 mod 60).
Proof.
  intros H. unfold formatElapsed.
  rewrite Z.rem_mod_nonneg by lia.
  assert (E : d mod 60000 / 1000 = d / 1000 mod 60).
  { change 60000 with (1000 * 60). rewrite Z.rem_mul_r by lia.
    rewrite Z.mul_comm, Z.div_add by lia.
    rewrite (Z.div_small (d mod 1000)) by (apply Z.mod_pos_bound; lia).
    reflexivity. }
  rewrite E.
  assert (Hs : 0 <= d / 1000 mod 60 < 100)
    by (pose proof (Z.mod_pos_bound (d / 1000) 60); lia).
  assert (Hm : 0 <= d / 60000 < 100)
    by (split; [apply Z.div_pos; lia|apply Z.div_lt_upper_bound; lia]).
  now rewrite (padStart0_twoDigits Hs), (padStart0_twoDigits Hm).
Qed.

(** C9. A tick of the call timer shows the time elapsed since the stored
    start timestamp: the text is the clock reading minus [callStartTime],
    formatted as zero-padded minutes and seconds.  The tick writes nothing
    but the text, so the display depends on the two instants alone and not
    on how many ticks came before. *)
Theorem timerTick_shows_elapsed (st : State) (t0 : Z) :
  callStartTime (this st) = Some t0 ->
  t0 <> 0 ->
  let elapsed := now (browser st) - t0 in
  callTimerText (page (timerTick st)) = formatElapsed elapsed
  /\ (0 <= elapsed < 6000000 ->
      callTimerText (page (timerTick st)) =
      twoDigits (elapsed / 60000) ++ lit ":" ++ twoDigits (elapsed / 1000 mod 60))
  /\ this (timerTick st) = this st
  /\ browser (timerTick st) = browser st.
Proof.
  intros H0 Hz elapsed. unfold timerTick. rewrite H0.
  apply Z.eqb_neq in Hz. rewrite Hz.
  repeat split. intros Hr. apply (formatElapsed_digits Hr).
Qed.

Lemma timerTick_shows_elapsed_witness :
  let st := run [EvSocketConnect (lit "s1"); EvStartCallClick;
                 EvGetUserMediaSettled 1 true; EvClock 1700000065000]
              (construct sampleEnv) in
  callTimerText (page (timerTick st)) = lit "01:05".
Proof.
  intros st.
  destruct (@timerTick_shows_elapsed st 1700000000000) as (_ & H & _).
  - reflexivity.
  - discriminate.
  - rewrite H; [reflexivity|]. vm_compute. split; [discriminate|reflexivity].
Defined.

(** *** Ending a call *)

Lemma adjust_nth (A : Type) (f : A -> A) (n : nat) (l : list A) (x : A) :
  nth_error (adjust f n l) n = Some x ->
  exists y, nth_error l n = Some y /\ x = f y.
Proof.
  revert n; induction l as [|a l IH]; intros [|n]; simpl; try discriminate.
  - intros [= <-]. eauto.
  - apply IH.
Qed.

(** The state of [endCall] when it reaches [this.synthesis.cancel()]. *)
Lemma endCallPrefix_eq (st : State) :
  endCallPrefix st =
  mkState
    (set_audioContext None (set_mediaStream None (set_isCallActive false (this st))))
    (page st)
    (set_recognizer
       (if recognition (this st) && isRecognizing (this st) then
          match recognizer (browser st) with
          | RecStarted => RecStopping
          | r => r
          end
        else recognizer (browser st))
       (set_frames
          match visualizerAnimationId (this st) with
          | Some id => filter (fun f => negb (Pos.eqb f id)) (frames (browser st))
          | None => frames (browser st)
          end
          (set_contexts
             match audioContext (this st) with
             | Some h => adjust (fun _ => true) h (contexts (browser st))
             | None => contexts (browser st)
             end
             (set_streams
                match mediaStream (this st) with
                | Some h => adjust (map stopTrack) h (streams (browser st))
                | None => streams (browser st)
                end
                (set_console
                   (console (browser st) ++ [(Log, [lit "📞 Ending call..."])])
                   (browser st)))))).
Proof.
  destruct st as [o p b]. destruct o, b. unfold endCallPrefix.
  destruct mediaStream0, audioContext0, visualizerAnimationId0, recognition0,
    isRecognizing0, recognizer0; reflexivity.
Qed.

Lemma stopTimer_eq (st : State) :
  stopTimer st =
  mkState (this st) (page st)
    (set_intervals
       match timerInterval (this st) with
       | Some id =>
         filter (fun e => negb (Pos.eqb (fst e) id)) (intervals (browser st))
       | None => intervals (browser st)
       end (browser st)).
Proof.
  destruct st as [o p b]. destruct b. unfold stopTimer.
  cbn [this]. destruct (timerInterval o); reflexivity.
Qed.

(** Where the browser has speech synthesis, [endCall] returns and leaves
    the system idle, from any state: the tracks of the stream held are
    stopped and the handle is cleared, the audio context is closed, the
    synthesis queue is emptied, the call timer is cleared, the history and
    the pane are emptied, and the muted and held flags are reset. *)
Lemma endCall_returns_to_idle (st : State) (q : list Utterance) :
  speechSynthesis (browser st) = Some q ->
  exists st', endCall st = Returned st'
    /\ isCallActive (this st') = false
    /\ mediaStream (this st') = None
    /\ (forall h ts, mediaStream (this st) = Some h ->
          nth_error (streams (browser st')) h = Some ts ->
          forall t, In t ts -> stopped t = true)
    /\ audioContext (this st') = None
    /\ (forall h c, audioContext (this st) = Some h ->
          nth_error (contexts (browser st')) h = Some c -> c = true)
    /\ outstanding st' = []
    /\ (forall id, timerInterval (this st) = Some id ->
          ~ In id (map fst (intervals (browser st'))))
    /\ messageHistory (this st') = []
    /\ isMuted (this st') = false
    /\ isOnHold (this st') = false
    /\ idlePage (page st').
Proof.
  intros Hs. unfold endCall. rewrite endCallPrefix_eq.
  destruct st as [o p b]. destruct b.
  cbn [browser speechSynthesis] in Hs. subst.
  exec. unfold endCallReset. exec. rewrite stopTimer_eq. exec.
  eexists. split; [reflexivity|]. unfold outstanding, idlePage.
  exec. repeat split.
  - intros h ts -> Hn t Ht.
    apply adjust_nth in Hn. destruct Hn as (ts0 & _ & ->).
    apply in_map_iff in Ht. destruct Ht as (t0 & <- & _). reflexivity.
  - intros h c -> Hn.
    apply adjust_nth in Hn. destruct Hn as (c0 & _ & ->). reflexivity.
  - intros id -> Hin.
    apply in_map_iff in Hin. destruct Hin as (e & <- & He).
    apply filter_In in He. destruct He as [_ He].
    rewrite Pos.eqb_refl in He. discriminate.
Qed.

(** C1 fails in two reachable states in which a call is active.
    - [startCall] ran twice (two retries were pending when the socket
      connected): each run installed a call timer and [timerInterval] holds
      the second only, so [endCall] clears one and the other keeps ticking
      and overwrites the display of the ended call.
    - The browser has no speech synthesis: [speak] tests for it, [endCall]
      does not, and the call of [cancel] throws after the stream was
      released; the call is marked inactive while the timer is left
      running, the history is kept and the muted flag stays set. *)
Theorem endCall_leaves_call_running :
  (reachable startedTwice
   /\ isCallActive (this startedTwice) = true
   /\ exists st',
        endCall startedTwice = Returned st'
        /\ isCallActive (this st') = false
        /\ In (2%positive, (1000, IvCallTimer)) (intervals (browser st'))
        /\ callTimerText (page st') = lit "00:00"
        /\ callTimerText
             (page (run [EvClock 1700000010000; EvInterval 2] st'))
           = lit "00:10")
  /\ (reachable silentCall
      /\ isCallActive (this silentCall) = true
      /\ exists st',
           endCall silentCall = Threw (lit "TypeError") st'
           /\ isCallActive (this st') = false
           /\ timerInterval (this st') = Some 2%positive
           /\ In 2%positive (map fst (intervals (browser st')))
           /\ messageHistory (this st') <> []
           /\ isMuted (this st') = true
           /\ endCallBtnHidden (page st') = false).
Proof.
  split.
  - split; [eexists _, _; reflexivity|]. split; [reflexivity|].
    eexists. split; [vm_compute; reflexivity|].
    vm_compute. repeat split. right. left. reflexivity.
  - split; [eexists _, _; reflexivity|]. split; [reflexivity|].
    eexists. split; [vm_compute; reflexivity|].
    vm_compute. repeat split; try discriminate. right. left. reflexivity.
Qed.

(** *** Starting a call *)

(** [startCall] asks for the microphone only when no stream is held. *)
Lemma startCall_with_stream_requests_nothing (st : State) (h : nat) :
  mediaStream (this st) = Some h ->
  promises (browser (startCall st)) = promises (browser st)
  /\ streams (browser (startCall st)) = streams (browser st)
  /\ mediaStream (this (startCall st)) = Some h.
Proof.
  destruct st as [o p b]. destruct o, b. cbn [this mediaStream].
  intros ->. destruct isConnected0, voiceSettings0 as [r pi [|] l];
    repeat split.
Qed.

(** C2 fails: more than one stream can be live.
    - The grant button of the permission modal calls
      [requestMicrophonePermission] without the test that [startCall]
      makes.  [startCall] leaves the modal shown; pressed during the call,
      the button acquires a second stream while the first is live, the
      first handle is overwritten, and [endCall] stops the second stream
      only.
    - [startCall] tests [mediaStream] before it awaits the answer, so two
      presses of Start before the answer acquire two streams. *)
Theorem second_stream_acquired :
  (reachable regranted
   /\ isCallActive (this inCall) = true
   /\ permissionModalHidden (page inCall) = false
   /\ List.length (liveStreams inCall) = 1%nat
   /\ List.length (liveStreams regranted) = 2%nat
   /\ mediaStream (this regranted) = Some 1%nat
   /\ List.length (liveStreams (stateOf (endCall regranted))) = 1%nat)
  /\ (reachable askedTwice
      /\ List.length (liveStreams askedTwice) = 2%nat
      /\ mediaStream (this askedTwice) = Some 1%nat).
Proof.
  split.
  - split; [eexists _, (_ ++ _); unfold regranted, inCall, run;
            rewrite fold_left_app; reflexivity|].
    repeat split; vm_compute; reflexivity.
  - split; [eexists _, _; reflexivity|].
    repeat split; vm_compute; reflexivity.
Qed.

(** When the microphone request is refused the attempt ends at the
    permission check, with no retry pending. *)
Lemma refused_start_is_not_retried : ~ disconnectedStartIsRetried.
Proof.
  intros H.
  assert (R : reachable (construct sampleEnv)) by (exists sampleEnv, []; reflexivity).
  specialize (H _ 1%nat false R eq_refl eq_refl).
  vm_compute in H. intuition discriminate.
Qed.

(** C6, as stated, fails: [startCall] tests the transport after the
    microphone request has been answered, not when Start is pressed.  An
    attempt made while the transport is not connected activates the call
    at once, with no retry, when the socket connects before the request is
    granted. *)
Lemma start_before_connect_activates_at_once : ~ disconnectedStartStaysInactive.
Proof.
  intros H.
  assert (R : reachable (construct sampleEnv)) by (exists sampleEnv, []; reflexivity).
  specialize (H _ (lit "s1") 1%nat R eq_refl eq_refl eq_refl).
  vm_compute in H. discriminate.
Qed.

Lemma startCallResume_disconnected (st : State) :
  isConnected (this st) = false -> deferred st (startCallResume st).
Proof.
  destruct st as [o p b]. destruct o, b. cbn [this isConnected].
  intros ->. unfold deferred. repeat split.
  exec. now rewrite <- app_assoc.
Qed.

(** C6, amended. [startCall] tests the transport after its microphone
    check, so what counts is the connection at that moment.  While the
    transport is not connected then (a stream is held when [startCall] is
    called, or the microphone request is granted), the call is not
    activated: the wait message is added and a retry of [startCall] is
    scheduled after 2000 ms, the call-active flag staying as it was.  With
    no stream held [startCall] first leaves the microphone request
    pending; when that request is refused nothing is retried, connected
    or not.  A retry that finds the transport connected and the stream
    held activates the call; and when the request is granted with the
    transport connected the call is activated at once, with the welcome
    message and no retry. *)
Theorem startCall_deferred_while_disconnected (st : State) :
  isConnected (this st) = false ->
  (forall h, mediaStream (this st) = Some h -> deferred st (startCall st))
  /\ (mediaStream (this st) = None ->
      promises (browser (startCall st)) =
      promises (browser st) ++ [PGetUserMedia FromStartCall]
      /\ isCallActive (this (startCall st)) = isCallActive (this st)
      /\ timeouts (browser (startCall st)) = timeouts (browser st))
  /\ deferred st (getUserMediaSettled FromStartCall true st)
  /\ (forall st2,
        isCallActive (this (getUserMediaSettled FromStartCall false st2))
        = isCallActive (this st2)
        /\ timeouts (browser (getUserMediaSettled FromStartCall false st2))
           = timeouts (browser st2) ++ [(100, CbScroll)])
  /\ (forall st2 h,
        isConnected (this st2) = true -> mediaStream (this st2) = Some h ->
        isCallActive (this (runCallback CbRetryStartCall st2)) = true)
  /\ (forall st2,
        isConnected (this st2) = true ->
        let st3 := getUserMediaSettled FromStartCall true st2 in
        isCallActive (this st3) = true
        /\ timeouts (browser st3) =
           timeouts (browser st2) ++ [(100, CbScroll)]
           ++ (if autoSpeak (voiceSettings (this st2))
               then [(500, CbSpeak welcome)] else [])
        /\ messageHistory (this st3) =
           messageHistory (this st2)
           ++ [mkMessage (lit "assistant") welcome (now (browser st2))]).
Proof.
  intros Hc. split; [|split; [|split; [|split; [|split]]]].
  - intros h Hm. destruct st as [o p b]. destruct o, b.
    cbn [this isConnected mediaStream] in Hc, Hm. subst.
    unfold deferred. repeat split. exec. now rewrite <- app_assoc.
  - intros Hm. destruct st as [o p b]. destruct o, b.
    cbn [this mediaStream] in Hm. subst. repeat split.
  - destruct st as [o p b]. destruct o, b, p.
    cbn [this isConnected] in Hc. subst.
    unfold deferred.
    destruct visualizerCanvas0, audioContextAvailable0, isCallActive0;
      repeat split; exec; now rewrite <- app_assoc.
  - intros [o p b]. destruct o, b. split; reflexivity.
  - intros [o p b] h Hc2 Hm. destruct o, b.
    cbn [this isConnected mediaStream] in Hc2, Hm. subst.
    destruct voiceSettings0 as [r pi [|] l]; reflexivity.
  - intros [o p b] Hc2 st3. subst st3. destruct o, b, p.
    cbn [this isConnected] in Hc2. subst.
    destruct visualizerCanvas0, audioContextAvailable0, isCallActive0,
      voiceSettings0 as [r pi [|] l];
      exec; rewrite <- ?app_assoc, ?app_nil_r; repeat split.
Qed.

Lemma startCall_deferred_while_disconnected_witness :
  isConnected (this (construct sampleEnv)) = false
  /\ deferred (construct sampleEnv)
       (getUserMediaSettled FromStartCall true (construct sampleEnv)).
Proof.
  split; [reflexivity|].
  destruct (@startCall_deferred_while_disconnected (construct sampleEnv))
    as (_ & _ & H & _).
  - reflexivity.
  - exact H.
Defined.

End VoiceCallFacts.

(* ------------------------------------------------------------------ *)
(** ** Properties of the ingestion form *)

Module AddDataFacts.

Import JsString AddData.
Local Open Scope Z_scope.

Lemma error_is_not_success : eqb (lit "error") (lit "success") = false.
Proof. vm_compute. reflexivity. Qed.

Lemma success_is_success : eqb (lit "success") (lit "success") = true.
Proof. vm_compute. reflexivity. Qed.

Lemma showMessage_error (text : jsstring) (f : Form) :
  exists a, showMessage text (lit "error") f = set_response (Some a) f
    /\ alertText a = text.
Proof.
  unfold showMessage. rewrite error_is_not_success. eexists. split; reflexivity.
Qed.

Lemma truthy_nonempty (s : jsstring) : s <> [] -> truthy s = true.
Proof. destruct s; [congruence|reflexivity]. Qed.

(** C7. A submission whose trimmed text is not empty but shorter than 50
    code units is refused in the handler: the too-short message is shown
    as an error, no request is made, and the button and the input are left
    as they were. *)
Theorem short_document_rejected (f : Form) :
  trim (dataInput f) <> [] ->
  length (trim (dataInput f)) < 50 ->
  (exists a, response (onSubmit f) = Some a /\ alertText a = tooShort)
  /\ requests (onSubmit f) = requests f
  /\ scheduled (onSubmit f) = scheduled f
  /\ submitDisabled (onSubmit f) = submitDisabled f
  /\ dataInput (onSubmit f) = dataInput f.
Proof.
  intros Hn Hl. unfold onSubmit.
  rewrite (truthy_nonempty Hn). cbn [negb].
  apply Z.ltb_lt in Hl. rewrite Hl.
  destruct (showMessage_error tooShort f) as (a & -> & Ha).
  split; [exists a; split; [reflexivity|exact Ha]|]. repeat split.
Qed.

Lemma short_document_rejected_witness :
  requests (onSubmit (emptyForm (lit "data"))) = [].
Proof.
  apply (@short_document_rejected (emptyForm (lit "data"))).
  - vm_compute. discriminate.
  - vm_compute. reflexivity.
Defined.

(** The same for a text of ten code units. *)
Example ten_characters_rejected :
  length (trim (lit "0123456789")) = 10
  /\ requests (onSubmit (emptyForm (lit "0123456789"))) = []
  /\ option_map alertText (response (onSubmit (emptyForm (lit "0123456789"))))
     = Some tooShort.
Proof. repeat split. Qed.

(** C8. A submission that passes the two checks disables the button and
    makes one request; however the request ends (success, an error answer
    of the backend, a body that is not JSON, a network failure) the button
    is enabled again and gets its label back. *)
Theorem submit_button_reenabled (f : Form) (out : FetchOutcome) :
  valid f ->
  submitDisabled (onSubmit f) = true
  /\ requests (onSubmit f) =
     requests f ++ [mkRequest (lit "/api/add_data") (lit "POST") (trim (dataInput f))]
  /\ submitDisabled (onSettled out (onSubmit f)) = false
  /\ submitHtml (onSettled out (onSubmit f)) = addDocumentHtml.
Proof.
  intros [Hn Hl]. unfold onSubmit.
  rewrite (truthy_nonempty Hn). cbn [negb].
  apply Z.ltb_ge in Hl. rewrite Hl. repeat split.
Qed.

Lemma submit_button_reenabled_witness :
  let f := emptyForm (repeat 97%N 60) in
  valid f
  /\ submitDisabled (onSubmit f) = true
  /\ submitDisabled (onSettled (Rejected (lit "Failed to fetch")) (onSubmit f))
     = false.
Proof.
  intros f.
  assert (V : valid f) by (split; vm_compute; discriminate).
  split; [exact V|].
  destruct (@submit_button_reenabled f (Rejected (lit "Failed to fetch")) V)
    as (H1 & _ & H2 & _).
  split; [exact H1|exact H2].
Defined.

(** What each way of ending shows. *)
Lemma onSettled_message (f : Form) (out : FetchOutcome) :
  option_map alertText (response (onSettled out f)) =
  Some
    match out with
    | Rejected m | Resolved _ (NotJson m) | Resolved _ (JsonNull m) =>
      lit "❌ Network Error: " ++ m
    | Resolved true (Json n _) =>
      lit "✅ Success! Added " ++ printed n
      ++ lit " document chunk(s) to knowledge base."
    | Resolved false (Json _ e) => lit "❌ Error: " ++ printed e
    end.
Proof.
  unfold onSettled, showMessage.
  rewrite error_is_not_success, success_is_success.
  destruct out as [m|[|] [n e|m|m]]; reflexivity.
Qed.

Lemma onSettled_success_clears_input (f : Form) (n e : option jsstring) :
  dataInput (onSettled (Resolved true (Json n e)) f) = [].
Proof. reflexivity. Qed.

End AddDataFacts.

(* ------------------------------------------------------------------ *)
(** ** More properties of the voice call system *)

Module VoiceCallMore.

Import JsString VoiceCall VoiceCallFacts.
Local Open Scope Z_scope.

(** [exec_all] is [exec] with the blocks of [endCall], [speak], the timer
    tick and the event loop unfolded as well. *)
Ltac exec_all :=
  lazy beta iota zeta delta [
    stopped voiceName uText uRate uPitch uVolume uLang uVoice role rate pitch
    autoSpeak language stText stDot nodeRole nodeClassName nodeHtml nodeTime
    icon label background color socket isConnected mediaStream audioContext
    analyser visualizerAnimationId recognition isRecognizing currentUtterance
    isCallActive isMuted isOnHold isRecording callStartTime timerInterval
    sessionId messageHistory voiceSettings visualizerCanvas callStatus
    ragStatus micStatus permissionModalHidden settingsModalHidden
    preCallStateHidden activeCallStateHidden startCallBtnHidden
    endCallBtnHidden voiceControlsHidden callTimerHidden
    speakingIndicatorHidden pushToTalkRecording callTimerText
    conversationPane conversationPaneAttached muteBtn holdBtn speedValue
    pitchValue streams contexts audioContextAvailable speechSynthesis voices
    recognizer timeouts intervals frames nextHandle promises emitted console
    now this page browser envPage envSocketIO envSpeechRecognition
    envSpeechSynthesis envAudioContext envVoices envNow set_isConnected
    set_mediaStream set_audioContext set_analyser set_visualizerAnimationId
    set_isRecognizing set_currentUtterance set_isCallActive set_isMuted
    set_isOnHold set_isRecording set_callStartTime set_timerInterval
    set_sessionId set_messageHistory set_voiceSettings set_callStatus
    set_ragStatus set_micStatus set_permissionModalHidden
    set_settingsModalHidden set_preCallStateHidden set_activeCallStateHidden
    set_startCallBtnHidden set_endCallBtnHidden set_voiceControlsHidden
    set_callTimerHidden set_speakingIndicatorHidden set_pushToTalkRecording
    set_callTimerText set_conversationPane set_conversationPaneAttached
    set_muteBtn set_holdBtn set_speedValue set_pitchValue set_streams
    set_contexts set_speechSynthesis set_voices set_recognizer set_timeouts
    set_intervals set_frames set_nextHandle set_promises set_emitted
    set_console set_now andThen skip onThis onPage onBrowser consoleWrite
    setTimeout updateStatus updateRAGStatus updateMicStatus addMessage
    synthesisCancel setInterval clearInterval startTimer
    requestAnimationFrame cancelAnimationFrame draw visualizeAudio
    setupAudioVisualization requestMicrophonePermission microphoneGranted
    microphoneDenied startCallResume startCall getUserMediaSettled
    recognitionStop stateOf stopTrack endCallReset endCall toggleMute
    toggleHold recognitionStart startRecording restartRecognition
    stopRecordingUI stopRecording socketEmit handleSpeechInput
    handleVoiceResponse onConnect onDisconnect onConnectionStatus
    onSocketError onConnectError keepAlive onRecognitionStart
    onRecognitionResult onRecognitionError onRecognitionEnd healthSettled
    loadVoicesWhenReady initializeSocket setupSpeechRecognition
    checkSystemStatus loadVoices fst snd negb andb orb option_map
    releaseMediaStream closeAudioContext cancelVisualizer stopRecognition
    stopTimer endCallPrefix step runCallback runInterval speak timerTick
    outstanding loadingRounds envLoadingRounds
  ].

(** [open_state] names every field of a state; [crush] runs the handlers
    and splits on each field or test they get stuck on. *)
Ltac open_state st :=
  let o := fresh "o" in let p := fresh "p" in let b := fresh "b" in
  destruct st as [o p b]; destruct o, p, b; cbn in *; subst.

Ltac case_var :=
  match goal with
  | |- context [match ?v with _ => _ end] => is_var v; destruct v
  | |- context [match @nth_error ?A ?l ?k with _ => _ end] =>
    destruct (@nth_error A l k) as [[]|]
  | |- context [match find ?f ?l with _ => _ end] =>
    destruct (find f l) as [[? [? []]]|]
  | |- context [if existsb ?f ?l then _ else _] => destruct (existsb f l)
  | |- context [match removeLoadingParent ?r ?l with _ => _ end] =>
    destruct (removeLoadingParent r l) eqn:?
  | |- context [match truthy ?s with _ => _ end] => destruct (truthy s) eqn:?
  | |- context [match preferredVoice ?s with _ => _ end] =>
    destruct (preferredVoice s)
  | |- context [match eqb ?s ?t with _ => _ end] => destruct (eqb s t)
  | |- context [if Z.eqb ?s ?t then _ else _] => destruct (Z.eqb s t)
  end.

Ltac crush := exec_all; repeat (case_var; exec_all).

(** *** Cleaning of the text to speak *)

Lemma subseq_refl (s : jsstring) : subseq s s.
Proof. induction s; constructor; assumption. Qed.

Lemma subseq_trans (a b c : jsstring) : subseq a b -> subseq b c -> subseq a c.
Proof.
  intros Hab Hbc. revert a Hab.
  induction Hbc as [|x b c _ IH|x b c _ IH]; intros a Hab.
  - exact Hab.
  - inversion Hab; subst; constructor; auto.
  - constructor. auto.
Qed.

Lemma subseq_app (a b c d : jsstring) :
  subseq a b -> subseq c d -> subseq (a ++ c) (b ++ d).
Proof. induction 1; simpl; intros; try constructor; auto. Qed.

Lemma subseq_nil_l (s : jsstring) : subseq [] s.
Proof. induction s; constructor; assumption. Qed.

Lemma subseq_In (a b : jsstring) (x : N) : subseq a b -> In x a -> In x b.
Proof. induction 1; simpl; intuition. Qed.

Lemma existsb_subseq (a b : jsstring) (f : N -> bool) :
  subseq a b -> existsb f b = false -> existsb f a = false.
Proof.
  induction 1 as [|c a b S IH|c a b S IH]; simpl; intros Hf; auto.
  - apply orb_false_iff in Hf. destruct Hf as [-> Hf]. auto.
  - apply orb_false_iff in Hf. destruct Hf as [_ Hf]. auto.
Qed.

Lemma hasTag_subseq (a b : jsstring) :
  subseq a b -> hasTag b = false -> hasTag a = false.
Proof.
  induction 1 as [|c a b S IH|c a b S IH]; simpl; intros H; auto.
  - apply orb_false_iff in H. destruct H as [H1 H2].
    rewrite (IH H2), orb_false_r.
    destruct (c =? 60)%N; [|reflexivity]. simpl in *.
    eapply existsb_subseq; eassumption.
  - apply orb_false_iff in H. destruct H as [_ H]. auto.
Qed.

Lemma existsb_reverse (f : N -> bool) (s : jsstring) :
  existsb f (rev s) = existsb f s.
Proof.
  induction s as [|c s IH]; simpl; [reflexivity|].
  rewrite existsb_app, IH. simpl. rewrite orb_false_r. apply orb_comm.
Qed.

Lemma hasTag_no_gt (s : jsstring) :
  existsb (N.eqb 62) s = false -> hasTag s = false.
Proof.
  induction s as [|c s IH]; simpl; [reflexivity|]. intros H.
  apply orb_false_iff in H. destruct H as [_ H].
  rewrite H, andb_false_r. simpl. auto.
Qed.

Lemma stripTags_hasTag (s : jsstring) (buf : option jsstring) :
  match buf with Some b => existsb (N.eqb 62) b = false | None => True end ->
  hasTag (stripTags buf s) = false.
Proof.
  revert buf. induction s as [|c s IH]; intros [b|] Hb; simpl.
  - apply hasTag_no_gt. rewrite existsb_reverse. exact Hb.
  - reflexivity.
  - destruct (c =? 62)%N eqn:E; apply IH; [exact I|].
    cbn [existsb]. rewrite Hb, orb_false_r, N.eqb_sym. exact E.
  - destruct (c =? 60)%N eqn:E.
    + apply IH. apply N.eqb_eq in E. subst. reflexivity.
    + cbn [hasTag]. rewrite E. cbn [andb orb]. apply IH. exact I.
Qed.

Lemma stripBold_subseq (s : jsstring) : subseq (stripBold s) s.
Proof.
  enough (H : subseq (stripBold s) s /\ forall c, subseq (stripBold (c :: s)) (c :: s))
    by apply H.
  induction s as [|d s [IH1 IH2]].
  - split; [constructor|]. intros c. simpl. apply subseq_refl.
  - split; [apply IH2|]. intros c.
    change (stripBold (c :: d :: s))
      with (if (c =? 42)%N && (d =? 42)%N then stripBold s else c :: stripBold (d :: s)).
    destruct ((c =? 42)%N && (d =? 42)%N).
    + do 2 constructor. exact IH1.
    + constructor. apply IH2.
Qed.

Lemma stripFences_subseq (s : jsstring) :
  (forall b, subseq (stripFences (Some b) s) (rev b ++ s))
  /\ subseq (stripFences None s) s.
Proof.
  enough (H : forall n s, (List.length s <= n)%nat ->
            (forall b, subseq (stripFences (Some b) s) (rev b ++ s))
            /\ subseq (stripFences None s) s)
    by (apply (H (List.length s)); lia).
  clear s. induction n as [|n IH]; intros s Hn.
  - destruct s; [|simpl in Hn; lia]. split.
    + intros b. simpl. rewrite app_nil_r. apply subseq_refl.
    + constructor.
  - destruct s as [|c r].
    + split; [intros b; simpl; rewrite app_nil_r; apply subseq_refl|constructor].
    + simpl in Hn.
      assert (Hr : (List.length r <= n)%nat) by lia.
      assert (Step : (forall b, subseq (stripFences (Some (c :: b)) r) (rev b ++ c :: r))
                     /\ subseq (c :: stripFences None r) (c :: r)).
      { split.
        - intros b. replace (rev b ++ c :: r) with (rev (c :: b) ++ r)
            by (simpl; now rewrite <- app_assoc).
          apply (IH r Hr).
        - constructor. apply (IH r Hr). }
      destruct r as [|d [|e r']].
      * simpl. split; [intros b; apply (proj1 Step b)|apply (proj2 Step)].
      * simpl. split; [intros b; apply (proj1 Step b)|apply (proj2 Step)].
      * simpl in Hr.
        change (stripFences None (c :: d :: e :: r'))
          with (if (c =? 96)%N && (d =? 96)%N && (e =? 96)%N
                then stripFences (Some [96; 96; 96]%N) r'
                else c :: stripFences None (d :: e :: r')).
        assert (Hfold : forall b, stripFences (Some b) (c :: d :: e :: r')
                  = if (c =? 96)%N && (d =? 96)%N && (e =? 96)%N
                    then stripFences None r'
                    else stripFences (Some (c :: b)) (d :: e :: r')) by reflexivity.
        destruct ((c =? 96)%N && (d =? 96)%N && (e =? 96)%N) eqn:E.
        -- assert (Hr' : (List.length r' <= n)%nat) by lia.
           apply andb_true_iff in E. destruct E as [E E3].
           apply andb_true_iff in E. destruct E as [E1 E2].
           apply N.eqb_eq in E1, E2, E3. subst. split.
           ++ intros b. rewrite Hfold.
              apply (@subseq_trans _ r'); [apply (IH r' Hr')|].
              replace (rev b ++ 96%N :: 96%N :: 96%N :: r')
                with ((rev b ++ [96; 96; 96]%N) ++ r') by (now rewrite <- app_assoc).
              rewrite <- (app_nil_l r') at 1.
              apply subseq_app; [apply subseq_nil_l|apply subseq_refl].
           ++ apply (proj1 (IH r' Hr') [96; 96; 96]%N).
        -- split; [intros b; rewrite Hfold; apply (proj1 Step b)|apply (proj2 Step)].
Qed.

(** X1. The text that [speak] hands to the synthesizer holds no HTML tag:
    no [<] with a [>] anywhere after it, although the markdown and the
    code-fence replacements run after the tag replacement. *)
Theorem cleanText_has_no_tag (t : jsstring) : hasTag (cleanText t) = false.
Proof.
  unfold cleanText.
  apply (@hasTag_subseq _ (stripBold (stripTags None t))).
  - apply stripFences_subseq.
  - apply (@hasTag_subseq _ (stripTags None t)).
    + apply stripBold_subseq.
    + apply stripTags_hasTag. exact I.
Qed.

Lemma stripTags_plain (s : jsstring) :
  existsb (N.eqb 60) s = false -> stripTags None s = s.
Proof.
  induction s as [|c s IH]; [reflexivity|].
  cbn [existsb stripTags]. intros H.
  apply orb_false_iff in H. destruct H as [H1 H2].
  rewrite N.eqb_sym in H1. rewrite H1, (IH H2). reflexivity.
Qed.

Lemma stripBold_plain (s : jsstring) :
  existsb (N.eqb 42) s = false -> stripBold s = s.
Proof.
  induction s as [|c s IH]; [reflexivity|].
  cbn [existsb]. intros H.
  apply orb_false_iff in H. destruct H as [H1 H2].
  destruct s as [|d s']; [reflexivity|].
  change (stripBold (c :: d :: s'))
    with (if (c =? 42)%N && (d =? 42)%N then stripBold s' else c :: stripBold (d :: s')).
  rewrite N.eqb_sym in H1. rewrite H1. cbn [andb]. now rewrite (IH H2).
Qed.

Lemma stripFences_plain (s : jsstring) :
  existsb (N.eqb 96) s = false -> stripFences None s = s.
Proof.
  induction s as [|c s IH]; [reflexivity|].
  cbn [existsb]. intros H.
  apply orb_false_iff in H. destruct H as [H1 H2].
  rewrite N.eqb_sym in H1. specialize (IH H2).
  destruct s as [|d [|e s']].
  - reflexivity.
  - reflexivity.
  - change (stripFences None (c :: d :: e :: s'))
      with (if (c =? 96)%N && (d =? 96)%N && (e =? 96)%N
            then stripFences (Some [96; 96; 96]%N) s'
            else c :: stripFences None (d :: e :: s')).
    rewrite H1. cbn [andb]. now rewrite IH.
Qed.

(** X2. A text with no [<], no [*] and no backquote is spoken as it is. *)
Theorem cleanText_plain (t : jsstring) :
  existsb isMarkup t = false -> cleanText t = t.
Proof.
  intros H. unfold cleanText.
  assert (A : forall k, (isMarkup k = false -> (k =? 60)%N = false /\ (k =? 42)%N = false /\ (k =? 96)%N = false)).
  { intros k Hk. unfold isMarkup in Hk. apply orb_false_iff in Hk. destruct Hk as [Hk ?].
    apply orb_false_iff in Hk. tauto. }
  assert (B : forall m, (m = 60 \/ m = 42 \/ m = 96)%N -> existsb (N.eqb m) t = false).
  { intros m Hm. clear -H A Hm. induction t as [|c t IH]; cbn [existsb] in *; [reflexivity|].
    apply orb_false_iff in H. destruct H as [H1 H2].
    rewrite (IH H2), orb_false_r. destruct (A c H1) as (a1 & a2 & a3).
    rewrite N.eqb_sym. destruct Hm as [->|[->| ->]]; assumption. }
  rewrite stripTags_plain, stripBold_plain, stripFences_plain; auto.
Qed.

Lemma cleanText_plain_witness :
  cleanText (lit "Hello, how are you?") = lit "Hello, how are you?".
Proof.
  apply (@cleanText_plain (lit "Hello, how are you?")).
  vm_compute. reflexivity.
Defined.

(** *** Speech synthesis *)

Lemma truthy_trim (s : jsstring) :
  trim s <> [] -> truthy s = true /\ truthy (trim s) = true.
Proof.
  intros H. split.
  - destruct s; [exfalso; apply H; reflexivity|reflexivity].
  - destruct (trim s); [congruence|reflexivity].
Qed.

Lemma truthy_true (s : jsstring) : truthy s = true -> s <> [].
Proof. destruct s; [discriminate|congruence]. Qed.

(** X3. Where the browser has speech synthesis, [speak] of a text that is
    blank once cleaned (only markup, or only whitespace) cancels what is
    being spoken and says nothing: the queue is left empty, and nothing
    else of the state changes. *)
Theorem speak_blank_only_cancels (st : State) (q : list Utterance) (t : jsstring) :
  speechSynthesis (browser st) = Some q ->
  trim (cleanText t) = [] ->
  speak t st = synthesisCancel st
  /\ outstanding (speak t st) = []
  /\ currentUtterance (this (speak t st)) = currentUtterance (this st).
Proof.
  intros Hs Ht. open_state st. unfold speak. exec_all. rewrite Ht. exec_all.
  repeat split.
Qed.

Lemma speak_blank_only_cancels_witness :
  outstanding (speak (lit "<br> ") (speak (lit "Hello") connected)) = [].
Proof.
  apply (@speak_blank_only_cancels (speak (lit "Hello") connected)
           (outstanding (speak (lit "Hello") connected)) (lit "<br> ")).
  - vm_compute. reflexivity.
  - vm_compute. reflexivity.
Defined.

(** X4. The voice that [speak] selects is an English voice of the list;
    none is selected exactly when the list has no English voice; and when
    an English voice has Female or Samantha in its name, the selected voice
    has one of them too. *)
Theorem preferredVoice_spec (vs : list Voice) :
  (forall v, preferredVoice vs = Some v -> In v vs /\ isEnglish v = true)
  /\ (preferredVoice vs = None <-> forall v, In v vs -> isEnglish v = false)
  /\ (forall w, In w vs -> isEnglish w = true -> feminine w = true ->
        exists v, preferredVoice vs = Some v /\ feminine v = true).
Proof.
  unfold preferredVoice.
  set (f := fun v => isEnglish v
      && (includes (lit "Female") (voiceName v)
          || includes (lit "Samantha") (voiceName v))).
  destruct (find f vs) as [v0|] eqn:F.
  - apply find_some in F. destruct F as [Hin Hf]. unfold f in Hf.
    apply andb_true_iff in Hf. destruct Hf as [He Hn].
    split; [|split].
    + intros v [= <-]. auto.
    + split; [discriminate|]. intros H. rewrite (H _ Hin) in He. discriminate.
    + intros w _ _ _. exists v0. auto.
  - pose proof (find_none _ _ F) as N. split; [|split].
    + intros v Hv. apply find_some in Hv. exact Hv.
    + split.
      * intros Hn v Hv. destruct (isEnglish v) eqn:E; [|reflexivity].
        pose proof (find_none _ _ Hn v Hv). congruence.
      * intros H. destruct (find isEnglish vs) as [v|] eqn:G; [|reflexivity].
        apply find_some in G. destruct G as [Hin He].
        rewrite (H _ Hin) in He. discriminate.
    + intros w Hw He Hf. specialize (N w Hw). unfold f in N.
      unfold feminine in Hf. rewrite He, Hf in N. discriminate.
Qed.

Lemma preferredVoice_spec_witness :
  exists v,
    preferredVoice [mkVoice (lit "Alex") (lit "en-US");
                    mkVoice (lit "Thomas") (lit "fr-FR");
                    mkVoice (lit "Samantha") (lit "en-US")] = Some v
    /\ feminine v = true.
Proof.
  apply (proj2 (proj2 (preferredVoice_spec _))
           (mkVoice (lit "Samantha") (lit "en-US"))).
  - right. right. left. reflexivity.
  - vm_compute. reflexivity.
  - vm_compute. reflexivity.
Defined.

(** *** Mute and hold *)

Lemma adjust_map (A B : Type) (g : A -> B) (f : A -> A) (n : nat) (l : list A) :
  (forall x, g (f x) = g x) -> map g (adjust f n l) = map g l.
Proof.
  intros H. revert n; induction l as [|a l IH]; intros [|n]; simpl; auto.
  - now rewrite H.
  - now rewrite IH.
Qed.

Lemma adjust_nth_same (A : Type) (f : A -> A) (n : nat) (l : list A) :
  nth_error (adjust f n l) n = option_map f (nth_error l n).
Proof. revert n; induction l; intros [|n]; simpl; auto. Qed.

Lemma adjust_nth_Some (A : Type) (f : A -> A) (n : nat) (l : list A) (x : A) :
  nth_error l n = Some x -> nth_error (adjust f n l) n = Some (f x).
Proof. intros H. now rewrite adjust_nth_same, H. Qed.

Lemma adjust_nth_other (A : Type) (f : A -> A) (n m : nat) (l : list A) :
  n <> m -> nth_error (adjust f n l) m = nth_error l m.
Proof.
  revert n m; induction l as [|a l IH]; intros [|n] [|m] H; simpl; auto.
  congruence.
Qed.

(** X5. [toggleMute] flips the muted flag and sets [enabled] on the tracks
    of the stream held to the opposite of the new flag.  It stops no track,
    keeps the handle and leaves every other stream, the call, the recording
    flag and the recognizer as they were. *)
Theorem toggleMute_keeps_stream (st : State) :
  let st' := toggleMute st in
  isMuted (this st') = negb (isMuted (this st))
  /\ mediaStream (this st') = mediaStream (this st)
  /\ map (map stopped) (streams (browser st'))
     = map (map stopped) (streams (browser st))
  /\ (forall h ts t, mediaStream (this st) = Some h ->
        nth_error (streams (browser st')) h = Some ts -> In t ts ->
        enabled t = isMuted (this st))
  /\ (forall h k, mediaStream (this st) = Some h -> k <> h ->
        nth_error (streams (browser st')) k = nth_error (streams (browser st)) k)
  /\ isCallActive (this st') = isCallActive (this st)
  /\ isRecording (this st') = isRecording (this st)
  /\ recognizer (browser st') = recognizer (browser st).
Proof.
  intros st'. subst st'. open_state st.
  destruct mediaStream0 as [h|], isMuted0; exec_all; repeat split;
    try discriminate.
  all: try (apply adjust_map; intros ts; rewrite map_map; reflexivity).
  all: try (intros h0 k E Hk; injection E as E; subst h0;
            apply adjust_nth_other; congruence).
  all: intros h0 ts t E Hn Ht; injection E as E; subst h0;
    rewrite adjust_nth_same in Hn; revert Hn;
    match goal with
    | |- context [@nth_error ?A ?l ?k] => destruct (@nth_error A l k)
    end;
    cbn [option_map]; [intros Hn|discriminate]; injection Hn as Hn; subst ts;
    apply in_map_iff in Ht; destruct Ht as (t0 & Ht0 & _); subst t;
    reflexivity.
Qed.

Lemma toggleMute_keeps_stream_witness :
  enabled (mkTrack false false) = isMuted (this talking).
Proof.
  apply (proj1 (proj2 (proj2 (proj2 (toggleMute_keeps_stream talking))))
           0%nat [mkTrack false false] (mkTrack false false)).
  - vm_compute. reflexivity.
  - vm_compute. reflexivity.
  - left. reflexivity.
Defined.

(** X6. [toggleHold] flips the held flag and touches neither the socket
    nor the microphone: connection, call, stream handle, streams and what
    was sent are unchanged, and a recording in progress is not ended (the
    recognizer and the recording flag stay as they are).  Going on hold
    adds one assistant message; resuming adds none. *)
Theorem toggleHold_effect (st : State) :
  let st' := toggleHold st in
  isOnHold (this st') = negb (isOnHold (this st))
  /\ isConnected (this st') = isConnected (this st)
  /\ isCallActive (this st') = isCallActive (this st)
  /\ mediaStream (this st') = mediaStream (this st)
  /\ streams (browser st') = streams (browser st)
  /\ emitted (browser st') = emitted (browser st)
  /\ recognizer (browser st') = recognizer (browser st)
  /\ isRecording (this st') = isRecording (this st)
  /\ messageHistory (this st') =
     messageHistory (this st)
     ++ (if isOnHold (this st) then []
         else [mkMessage (lit "assistant")
                 (lit "Call on hold. Click Resume when ready.")
                 (now (browser st))]).
Proof.
  intros st'. subst st'. open_state st.
  destruct isOnHold0; exec_all; rewrite ?app_nil_r; repeat split.
Qed.

(** *** Recording *)

(** X7. In an active call that is neither muted nor held nor recording,
    with a recognizer, [startRecording] sets the recording flag and shows
    the indicator.  An idle recognizer is started; one that is still
    running is told to stop and a restart is scheduled 100 ms later. *)
Theorem startRecording_starts (st : State) :
  isCallActive (this st) = true -> isMuted (this st) = false ->
  isOnHold (this st) = false -> isRecording (this st) = false ->
  recognition (this st) = true ->
  let st' := startRecording st in
  isRecording (this st') = true
  /\ speakingIndicatorHidden (page st') = false
  /\ pushToTalkRecording (page st') = true
  /\ messageHistory (this st') = messageHistory (this st)
  /\ (recognizer (browser st) = RecIdle ->
      recognizer (browser st') = RecStarted
      /\ timeouts (browser st') = timeouts (browser st))
  /\ (recognizer (browser st) <> RecIdle ->
      recognizer (browser st') = RecStopping
      /\ timeouts (browser st') =
         timeouts (browser st) ++ [(100, CbRestartRecognition)]).
Proof.
  intros H1 H2 H3 H4 H5 st'. subst st'. open_state st.
  destruct recognizer0; exec_all; repeat split; intros; congruence.
Qed.

Lemma startRecording_starts_witness :
  isRecording (this (startRecording talking)) = true
  /\ recognizer (browser (startRecording talking)) = RecStarted.
Proof.
  destruct (@startRecording_starts talking) as (H1 & _ & _ & _ & H2 & _);
    try (vm_compute; reflexivity).
  split; [exact H1|]. apply H2. vm_compute. reflexivity.
Defined.

(** X8. [stopRecording] does nothing when the recording flag is clear.
    Otherwise it clears the flag and hides the indicator, and it asks the
    recognizer to stop only if the recognizer has reported its start: after
    a release before that report the recognizer keeps running. *)
Theorem stopRecording_effect (st : State) :
  (isRecording (this st) = false -> stopRecording st = st)
  /\ (isRecording (this st) = true ->
      let st' := stopRecording st in
      isRecording (this st') = false
      /\ speakingIndicatorHidden (page st') = true
      /\ pushToTalkRecording (page st') = false
      /\ recognizer (browser st') =
         (if recognition (this st) && isRecognizing (this st) then
            match recognizer (browser st) with
            | RecStarted => RecStopping
            | r => r
            end
          else recognizer (browser st))
      /\ messageHistory (this st') = messageHistory (this st)
      /\ emitted (browser st') = emitted (browser st)).
Proof.
  split; intros H.
  - open_state st. reflexivity.
  - intros st'. subst st'. open_state st.
    destruct recognition0, isRecognizing0, recognizer0; exec_all; repeat split.
Qed.

Lemma stopRecording_effect_witness :
  isRecording (this (stopRecording listening)) = false
  /\ recognizer (browser (stopRecording listening)) = RecStopping.
Proof.
  destruct (proj2 (stopRecording_effect listening)) as (H1 & _ & _ & H2 & _).
  - vm_compute. reflexivity.
  - split; [exact H1|]. rewrite H2. vm_compute. reflexivity.
Defined.

(** *** Transcripts and responses *)

(** [handleVoiceResponse] with the search for the loading element made
    first, on the state it is called in. *)
Lemma handleVoiceResponse_eq (text : jsstring) (used_rag : bool) (st : State) :
  handleVoiceResponse text used_rag st =
  let rest :=
    addMessage (lit "assistant") text [] ;;
    (if used_rag then updateStatus (lit "📚 Answer from documents") (lit "active")
     else updateStatus (lit "🤖 General knowledge") (lit "active")) ;;
    (fun st =>
       if autoSpeak (voiceSettings (this st)) then setTimeout (CbSpeak text) 300 st
       else st) in
  let st1 := consoleWrite Log [lit "📥 Received response:"; text] st in
  match
    removeLoadingParent (loadingRounds (browser st)) (conversationPane (page st))
  with
  | NoLoading => rest st1
  | LoadingDiv => rest (onPage (set_conversationPaneAttached false) st1)
  | LoadingInside pane => rest (onPage (set_conversationPane pane) st1)
  end.
Proof.
  destruct st as [o p b]. destruct b.
  unfold handleVoiceResponse, andThen. cbv zeta.
  cbn [consoleWrite onBrowser browser page set_console loadingRounds].
  destruct (removeLoadingParent loadingRounds0 (conversationPane p)); reflexivity.
Qed.

(** X9. A transcript that is not blank is appended to the history and the
    pane as a user message.  With a connected socket one [voice_input] with
    the text, the session id and the time is sent and a loading placeholder
    is appended; otherwise nothing is sent and the message
    [Not connected to server] is appended.  The call and the recording flag
    are not touched. *)
Theorem handleSpeechInput_effect (st : State) (text : jsstring) :
  trim text <> [] ->
  let st' := handleSpeechInput text st in
  let t := now (browser st) in
  let sent := socket (this st) && isConnected (this st) in
  emitted (browser st') =
    emitted (browser st)
    ++ (if sent then [EmVoiceInput text (sessionId (this st)) t] else [])
  /\ messageHistory (this st') =
     messageHistory (this st)
     ++ [mkMessage (lit "user") text t;
         mkMessage (lit "assistant")
           (if sent then loadingDots
            else lit "Not connected to server. Please refresh the page.") t]
  /\ conversationPane (page st') =
     conversationPane (page st)
     ++ [mkMessageNode (lit "user") [] text t;
         if sent then mkMessageNode (lit "assistant") (lit "loading") loadingDots t
         else mkMessageNode (lit "assistant") []
                (lit "Not connected to server. Please refresh the page.") t]
  /\ isCallActive (this st') = isCallActive (this st)
  /\ isRecording (this st') = isRecording (this st).
Proof.
  intros Ht st' t sent. subst st' t sent.
  destruct (@truthy_trim text Ht) as [T1 T2].
  unfold handleSpeechInput. rewrite T1, T2. cbn [negb orb].
  open_state st.
  destruct socket0, isConnected0; exec_all; rewrite <- ?app_assoc, ?app_nil_r;
    repeat split.
Qed.

Lemma handleSpeechInput_effect_witness :
  isCallActive (this (handleSpeechInput (lit "What are your hours?") talking))
  = isCallActive (this talking).
Proof.
  destruct (@handleSpeechInput_effect talking (lit "What are your hours?"))
    as (_ & _ & _ & H & _).
  - vm_compute. discriminate.
  - exact H.
Defined.

(** X10. The same transcript handled twice over a connected socket is sent
    twice and stored twice: two [voice_input] messages with the same text
    and session id go out, each with the time of its own handling, and the
    history grows by four entries.  Nothing is deduplicated. *)
Theorem same_transcript_sent_twice (st : State) (text : jsstring) (later : Z) :
  trim text <> [] ->
  socket (this st) = true -> isConnected (this st) = true ->
  let st' := handleSpeechInput text
               (step (EvClock later) (handleSpeechInput text st)) in
  emitted (browser st') =
    emitted (browser st)
    ++ [EmVoiceInput text (sessionId (this st)) (now (browser st));
        EmVoiceInput text (sessionId (this st)) later]
  /\ List.length (messageHistory (this st')) =
     (List.length (messageHistory (this st)) + 4)%nat.
Proof.
  intros Ht Hs Hc st'. subst st'.
  destruct (@truthy_trim text Ht) as [T1 T2].
  unfold handleSpeechInput. rewrite T1, T2. cbn [negb orb].
  open_state st. exec_all. rewrite <- !app_assoc, !length_app.
  split; [reflexivity|]. simpl. lia.
Qed.

Lemma same_transcript_sent_twice_witness :
  List.length
    (messageHistory
       (this (handleSpeechInput (lit "Hello")
                (step (EvClock 1700000005000)
                   (handleSpeechInput (lit "Hello") talking)))))
  = (List.length (messageHistory (this talking)) + 4)%nat.
Proof.
  destruct (@same_transcript_sent_twice talking (lit "Hello") 1700000005000)
    as (_ & H).
  - vm_compute. discriminate.
  - vm_compute. reflexivity.
  - vm_compute. reflexivity.
  - exact H.
Defined.

(** X11. A voice response appends exactly one assistant message with the
    response text to the history, sends nothing, and does not speak at
    once: the utterance queue is unchanged, and with auto-speak on one
    [speak] of the text is scheduled 300 ms later (none with auto-speak
    off), after the scroll that [addMessage] schedules. *)
Theorem handleVoiceResponse_effect (st : State) (text : jsstring) (used_rag : bool) :
  let st' := handleVoiceResponse text used_rag st in
  let t := now (browser st) in
  messageHistory (this st') =
    messageHistory (this st) ++ [mkMessage (lit "assistant") text t]
  /\ timeouts (browser st') =
     timeouts (browser st) ++ [(100, CbScroll)]
     ++ (if autoSpeak (voiceSettings (this st)) then [(300, CbSpeak text)] else [])
  /\ outstanding st' = outstanding st
  /\ emitted (browser st') = emitted (browser st).
Proof.
  intros st' t. subst st' t. rewrite handleVoiceResponse_eq. open_state st.
  destruct (removeLoadingParent loadingRounds0 conversationPane0),
    voiceSettings0 as [r pi [|] l], used_rag;
    unfold outstanding; exec_all;
    rewrite <- ?app_assoc, ?app_nil_r; repeat split.
Qed.

Lemma removeLoadingParent_plain (rounds : jsstring -> nat) (pane : list MessageNode) :
  (forall n, In n pane -> innerLoading rounds n = 0%nat) ->
  removeLoadingParent rounds pane =
  if existsb hasLoadingClass pane then LoadingDiv else NoLoading.
Proof.
  induction pane as [|n r IH]; intros H; [reflexivity|].
  cbn [removeLoadingParent existsb].
  destruct (hasLoadingClass n); [reflexivity|].
  rewrite (H n (or_introl eq_refl)). cbn [Nat.ltb Nat.leb orb].
  rewrite IH by (intros m Hm; apply H; right; exact Hm).
  destruct (existsb hasLoadingClass r); reflexivity.
Qed.

(** X12. The response to a transcript sent over a connected socket does
    not remove the loading placeholder.  Where no bubble of the pane and
    not the transcript itself holds an element of class [loading], the
    first element of that class is a message div (the placeholder, or an
    older one), whose parent is the conversation pane:
    [loadingMsg.parentElement.remove()] detaches the pane, which then
    holds the user message, the placeholder and the answer. *)
Theorem response_keeps_loading_placeholder
  (st : State) (text answer : jsstring) (used_rag : bool) (later : Z) :
  trim text <> [] ->
  socket (this st) = true -> isConnected (this st) = true ->
  (forall n, In n (conversationPane (page st)) ->
     innerLoading (loadingRounds (browser st)) n = 0%nat) ->
  loadingRounds (browser st) text = 0%nat ->
  loadingRounds (browser st) loadingDots = 0%nat ->
  let st' := handleVoiceResponse answer used_rag
               (step (EvClock later) (handleSpeechInput text st)) in
  let t := now (browser st) in
  conversationPane (page st') =
    conversationPane (page st)
    ++ [mkMessageNode (lit "user") [] text t;
        mkMessageNode (lit "assistant") (lit "loading") loadingDots t;
        mkMessageNode (lit "assistant") [] answer later]
  /\ conversationPaneAttached (page st') = false.
Proof.
  intros Ht Hs Hc Hin Htext Hdots st' t. subst st' t.
  destruct (@truthy_trim text Ht) as [T1 T2].
  rewrite handleVoiceResponse_eq.
  unfold handleSpeechInput. rewrite T1, T2. cbn [negb orb].
  open_state st. exec_all.
  assert (E : removeLoadingParent loadingRounds0
                ((conversationPane0 ++ [mkMessageNode (lit "user") [] text now0])
                 ++ [mkMessageNode (lit "assistant") (lit "loading") loadingDots now0])
              = LoadingDiv).
  { rewrite removeLoadingParent_plain.
    - rewrite existsb_app.
      replace (existsb hasLoadingClass
                 [mkMessageNode (lit "assistant") (lit "loading") loadingDots now0])
        with true by (vm_compute; reflexivity).
      now rewrite orb_true_r.
    - intros n Hn. apply in_app_or in Hn. destruct Hn as [Hn|[<-|[]]].
      + apply in_app_or in Hn. destruct Hn as [Hn|[<-|[]]].
        * apply Hin. exact Hn.
        * unfold innerLoading, mkMessageNode. cbn [nodeHtml nodeCut].
          rewrite Htext. reflexivity.
      + unfold innerLoading, mkMessageNode. cbn [nodeHtml nodeCut].
        rewrite Hdots. reflexivity. }
  rewrite E. destruct voiceSettings0 as [r pi [|] l], used_rag; exec_all;
    rewrite <- ?app_assoc; repeat split.
Qed.

Lemma response_keeps_loading_placeholder_witness :
  conversationPaneAttached
    (page (handleVoiceResponse (lit "We open at nine.") true
             (step (EvClock 1700000005000)
                (handleSpeechInput (lit "What are your hours?") talking))))
  = false.
Proof.
  destruct (@response_keeps_loading_placeholder talking
              (lit "What are your hours?") (lit "We open at nine.") true
              1700000005000)
    as (_ & H).
  - vm_compute. discriminate.
  - vm_compute. reflexivity.
  - vm_compute. reflexivity.
  - intros n _. reflexivity.
  - reflexivity.
  - reflexivity.
  - exact H.
Defined.

(** X13. Every recognition error ends the recording display: the flag is
    cleared and the indicator hidden.  [not-allowed] and
    [permission-denied] reopen the permission modal, [network] appends one
    assistant message, every other error appends none; the recognizer
    itself is not stopped and the call stays as it was. *)
Theorem recognition_error_effect (st : State) (error : jsstring) :
  let st' := onRecognitionError error st in
  let denied := eqb error (lit "not-allowed") || eqb error (lit "permission-denied") in
  let network := negb denied && negb (eqb error (lit "no-speech"))
                 && eqb error (lit "network") in
  isRecording (this st') = false
  /\ speakingIndicatorHidden (page st') = true
  /\ pushToTalkRecording (page st') = false
  /\ permissionModalHidden (page st') =
     (if denied then false else permissionModalHidden (page st))
  /\ messageHistory (this st') =
     messageHistory (this st)
     ++ (if network then
           [mkMessage (lit "assistant")
              (lit "Network error. Please check your connection.") (now (browser st))]
         else [])
  /\ isCallActive (this st') = isCallActive (this st)
  /\ recognizer (browser st') = recognizer (browser st).
Proof.
  intros st' denied network. subst st' denied network.
  unfold onRecognitionError. open_state st.
  destruct (eqb error (lit "not-allowed")), (eqb error (lit "permission-denied")),
    (eqb error (lit "no-speech")), (eqb error (lit "network"));
    exec_all; rewrite ?app_nil_r; repeat split.
Qed.

(** X14. A socket disconnect ends nothing of the call: the call stays
    active and the stream and the session id are kept.  A transcript
    recognised after it is stored as a user message and answered locally
    with [Not connected to server]; it is not sent and not queued for a
    later send. *)
Theorem speech_after_disconnect_not_sent
  (st : State) (reason text : jsstring) (later : Z) :
  trim text <> [] ->
  let st' := handleSpeechInput text
               (step (EvClock later) (onDisconnect reason st)) in
  emitted (browser st') = emitted (browser st)
  /\ isCallActive (this st') = isCallActive (this st)
  /\ mediaStream (this st') = mediaStream (this st)
  /\ sessionId (this st') = sessionId (this st)
  /\ timeouts (browser st') = timeouts (browser st) ++ [(100, CbScroll); (100, CbScroll)]
  /\ messageHistory (this st') =
     messageHistory (this st)
     ++ [mkMessage (lit "user") text later;
         mkMessage (lit "assistant")
           (lit "Not connected to server. Please refresh the page.") later].
Proof.
  intros Ht st'. subst st'.
  destruct (@truthy_trim text Ht) as [T1 T2].
  unfold handleSpeechInput. rewrite T1, T2. cbn [negb orb].
  open_state st. destruct socket0; exec_all; rewrite <- ?app_assoc; repeat split.
Qed.

Lemma speech_after_disconnect_not_sent_witness :
  emitted (browser (handleSpeechInput (lit "Hello")
                      (step (EvClock 1700000005000)
                         (onDisconnect (lit "transport close") talking))))
  = emitted (browser talking).
Proof.
  destruct (@speech_after_disconnect_not_sent talking (lit "transport close")
              (lit "Hello") 1700000005000) as (H & _).
  - vm_compute. discriminate.
  - exact H.
Defined.

(** *** Microphone and call start *)

(** X15. A granted microphone request always adds one new live stream and
    makes it the stream held, whoever asked and whether or not a stream was
    already held; it does not close the permission modal.  A new audio
    context is opened only where the page has the visualizer canvas and the
    browser an audio context. *)
Theorem microphone_granted_adds_stream (caller : MicCaller) (st : State) :
  let st' := getUserMediaSettled caller true st in
  streams (browser st') = streams (browser st) ++ [[mkTrack false true]]
  /\ mediaStream (this st') = Some (List.length (streams (browser st)))
  /\ permissionModalHidden (page st') = permissionModalHidden (page st)
  /\ contexts (browser st') =
     contexts (browser st)
     ++ (if visualizerCanvas (page st) && audioContextAvailable (browser st)
         then [false] else []).
Proof.
  intros st'. subst st'. open_state st.
  destruct caller, visualizerCanvas0, audioContextAvailable0, isCallActive0,
    isConnected0, voiceSettings0 as [r pi [|] l];
    exec_all; rewrite ?app_nil_r; repeat split.
Qed.

(** X16. A refused microphone request adds one assistant message that asks
    for microphone access and changes nothing of the call: no stream, no
    activation, no timer, and, for a request made by [startCall], no retry:
    the timeouts gain only the scroll of [addMessage]. *)
Theorem microphone_denied_effect (caller : MicCaller) (st : State) :
  let st' := getUserMediaSettled caller false st in
  streams (browser st') = streams (browser st)
  /\ mediaStream (this st') = mediaStream (this st)
  /\ isCallActive (this st') = isCallActive (this st)
  /\ callStartTime (this st') = callStartTime (this st)
  /\ intervals (browser st') = intervals (browser st)
  /\ timeouts (browser st') = timeouts (browser st) ++ [(100, CbScroll)]
  /\ permissionModalHidden (page st') = permissionModalHidden (page st)
  /\ messageHistory (this st') =
     messageHistory (this st)
     ++ [mkMessage (lit "assistant")
           (lit "I need microphone access to hear you. Please allow microphone access in your browser settings.")
           (now (browser st))].
Proof.
  intros st'. subst st'. open_state st. destruct caller; repeat split.
Qed.

(** X17. With a stream held and the socket connected, [startCall]
    activates the call at once: it stores the current time as the start
    time, installs one new call-timer interval of 1000 ms and stores its
    handle, appends the welcome message, and schedules the spoken welcome
    after 500 ms only with auto-speak on.  It asks for no microphone and
    does not reset the muted and held flags. *)
Theorem startCall_activates (st : State) (h : nat) :
  mediaStream (this st) = Some h ->
  isConnected (this st) = true ->
  let st' := startCall st in
  let id := nextHandle (browser st) in
  isCallActive (this st') = true
  /\ callStartTime (this st') = Some (now (browser st))
  /\ timerInterval (this st') = Some id
  /\ intervals (browser st') = intervals (browser st) ++ [(id, (1000, IvCallTimer))]
  /\ messageHistory (this st') =
     messageHistory (this st)
     ++ [mkMessage (lit "assistant") welcome (now (browser st))]
  /\ timeouts (browser st') =
     timeouts (browser st) ++ [(100, CbScroll)]
     ++ (if autoSpeak (voiceSettings (this st)) then [(500, CbSpeak welcome)] else [])
  /\ promises (browser st') = promises (browser st)
  /\ startCallBtnHidden (page st') = true
  /\ endCallBtnHidden (page st') = false
  /\ voiceControlsHidden (page st') = false
  /\ isMuted (this st') = isMuted (this st)
  /\ isOnHold (this st') = isOnHold (this st).
Proof.
  intros Hm Hc st' id. subst st' id. open_state st.
  destruct voiceSettings0 as [r pi [|] l]; exec_all;
    rewrite <- ?app_assoc, ?app_nil_r; repeat split.
Qed.

Lemma startCall_activates_witness :
  isCallActive
    (this (startCall
             (run [EvStartCallClick; EvGetUserMediaSettled 1 true;
                   EvSocketConnect (lit "s1")] (construct sampleEnv)))) = true.
Proof.
  destruct (@startCall_activates
              (run [EvStartCallClick; EvGetUserMediaSettled 1 true;
                    EvSocketConnect (lit "s1")] (construct sampleEnv)) 0%nat)
    as (H & _).
  - vm_compute. reflexivity.
  - vm_compute. reflexivity.
  - exact H.
Defined.

(** X18. After [endCall] has returned, a new [startCall] cannot go
    straight to the active state: the stream handle was cleared, so the
    permission modal is shown again, a new microphone request is made, and
    the call is not active until that request is answered. *)
Theorem startCall_after_endCall_asks_again (st : State) (q : list Utterance) :
  speechSynthesis (browser st) = Some q ->
  let st' := startCall (stateOf (endCall st)) in
  isCallActive (this st') = false
  /\ permissionModalHidden (page st') = false
  /\ promises (browser st') =
     promises (browser st) ++ [PGetUserMedia FromStartCall]
  /\ mediaStream (this st') = None.
Proof.
  intros Hs st'. subst st'. unfold endCall. rewrite endCallPrefix_eq.
  open_state st. destruct timerInterval0; exec_all; repeat split.
Qed.

Lemma startCall_after_endCall_asks_again_witness :
  isCallActive (this (startCall (stateOf (endCall talking)))) = false.
Proof.
  destruct (@startCall_after_endCall_asks_again talking []) as (H & _).
  - vm_compute. reflexivity.
  - exact H.
Defined.

(** X19. [startCall] without a stream opens the permission modal and
    nothing on its path closes it again: the modal is still open after the
    microphone request is answered, granted or refused. *)
Theorem startCall_leaves_modal_open (st : State) (granted : bool) :
  mediaStream (this st) = None ->
  permissionModalHidden (page (startCall st)) = false
  /\ permissionModalHidden
       (page (getUserMediaSettled FromStartCall granted (startCall st))) = false.
Proof.
  intros Hm. open_state st. split; [reflexivity|].
  destruct granted, visualizerCanvas0, audioContextAvailable0, isCallActive0,
    isConnected0, voiceSettings0 as [r pi [|] l]; reflexivity.
Qed.

Lemma startCall_leaves_modal_open_witness :
  permissionModalHidden
    (page (getUserMediaSettled FromStartCall true (startCall connected))) = false.
Proof.
  destruct (@startCall_leaves_modal_open connected true) as (_ & H).
  - vm_compute. reflexivity.
  - exact H.
Defined.

Lemma nth_error_snoc (A : Type) (l : list A) (x : A) :
  nth_error (l ++ [x]) (List.length l) = Some x.
Proof. induction l; simpl; auto. Qed.

Lemma removeNth_snoc (A : Type) (l : list A) (x : A) :
  removeNth (List.length l) (l ++ [x]) = l.
Proof. induction l; simpl; congruence. Qed.

Lemma start_then_cancel (st : State) :
  mediaStream (this st) = None ->
  let st' := step EvCancelPermissionClick (step EvStartCallClick st) in
  promises (browser st') = promises (browser st) ++ [PGetUserMedia FromStartCall]
  /\ isConnected (this st') = isConnected (this st)
  /\ permissionModalHidden (page st') = true
  /\ streams (browser st') = streams (browser st).
Proof.
  intros Hm st'. subst st'. open_state st. exec_all. repeat split.
Qed.

Lemma granted_to_startCall (st : State) (k : nat) :
  nth_error (promises (browser st)) k = Some (PGetUserMedia FromStartCall) ->
  isConnected (this st) = true ->
  let st' := step (EvGetUserMediaSettled k true) st in
  isCallActive (this st') = true
  /\ permissionModalHidden (page st') = permissionModalHidden (page st)
  /\ promises (browser st') = removeNth k (promises (browser st))
  /\ streams (browser st') = streams (browser st) ++ [[mkTrack false true]].
Proof.
  intros Hn Hc st'. subst st'. open_state st.
  unfold step. cbn [browser promises]. rewrite Hn.
  destruct visualizerCanvas0, audioContextAvailable0, isCallActive0,
    voiceSettings0 as [r pi [|] l]; exec_all; repeat split.
Qed.

(** X20. The Cancel button of the permission modal hides the modal and
    withdraws nothing: when the pending microphone request of [startCall]
    is granted afterwards, a stream is acquired and, the socket being
    connected, the call becomes active. *)
Theorem cancel_does_not_withdraw_request (st : State) :
  mediaStream (this st) = None ->
  isConnected (this st) = true ->
  let k := List.length (promises (browser st)) in
  let st' := run [EvStartCallClick; EvCancelPermissionClick;
                  EvGetUserMediaSettled k true] st in
  isCallActive (this st') = true
  /\ permissionModalHidden (page st') = true
  /\ promises (browser st') = promises (browser st)
  /\ List.length (streams (browser st')) = S (List.length (streams (browser st))).
Proof.
  intros Hm Hc k st'. subst k st'. unfold run. cbn [fold_left].
  destruct (start_then_cancel st Hm) as (P1 & P2 & P3 & P4).
  destruct (@granted_to_startCall
              (step EvCancelPermissionClick (step EvStartCallClick st))
              (List.length (promises (browser st))))
    as (Q1 & Q2 & Q3 & Q4).
  - rewrite P1. apply nth_error_snoc.
  - rewrite P2. exact Hc.
  - rewrite Q1, Q2, Q3, Q4, P1, P3, P4, removeNth_snoc, length_app.
    repeat split. simpl. lia.
Qed.

Lemma cancel_does_not_withdraw_request_witness :
  isCallActive
    (this (run [EvStartCallClick; EvCancelPermissionClick;
                EvGetUserMediaSettled (List.length (promises (browser connected))) true]
             connected)) = true.
Proof.
  destruct (@cancel_does_not_withdraw_request connected) as (H & _).
  - vm_compute. reflexivity.
  - vm_compute. reflexivity.
  - exact H.
Defined.

(** *** Invariants of the event loop

    Each invariant holds after the constructor and is kept by every event
    of [step]: listeners, socket and recognizer callbacks, settled
    promises, timeouts, intervals and animation frames. *)

(** [open_endCall] opens the case of the End button with the blocks of
    [endCall] kept folded. *)
Ltac open_endCall st :=
  unfold step, stateOf, endCall; rewrite endCallPrefix_eq; open_state st.

Lemma run_snoc (evs : list Event) (ev : Event) (st : State) :
  run (evs ++ [ev]) st = step ev (run evs st).
Proof. unfold run. now rewrite fold_left_app. Qed.

Lemma removeLoadingParent_inside
  (rounds : jsstring -> nat) (pane pane' : list MessageNode) :
  removeLoadingParent rounds pane = LoadingInside pane' ->
  map messageOfNode pane' = map messageOfNode pane.
Proof.
  revert pane'. induction pane as [|n r IH]; intros pane' H; [discriminate|].
  cbn [removeLoadingParent] in H.
  destruct (hasLoadingClass n); [discriminate|].
  destruct (Nat.ltb 0 (innerLoading rounds n)).
  - injection H as <-. reflexivity.
  - destruct (removeLoadingParent rounds r) as [| |r'];
      try discriminate.
    injection H as <-. cbn [map]. now rewrite (IH r' eq_refl).
Qed.

Lemma liveStream_map (f : Track -> Track) (ts : MediaStream) :
  (forall t, stopped (f t) = stopped t) -> liveStream (map f ts) = liveStream ts.
Proof.
  intros H. unfold liveStream. induction ts as [|t ts IH]; simpl; [reflexivity|].
  now rewrite H, IH.
Qed.

(** Solvers for the leaves of the case analyses below. *)
Ltac solve_stream H :=
  first
  [ exact H
  | intros ? ?; discriminate
  | let h := fresh "h" in let Hh := fresh "Hh" in
    intros h Hh; injection Hh as Hh; subst h;
    rewrite nth_error_snoc; eexists; split; reflexivity
  | let h := fresh "h" in let Hh := fresh "Hh" in
    let Hn := fresh "Hn" in let Hl := fresh "Hl" in
    intros h Hh; destruct (H h Hh) as (? & Hn & Hl);
    injection Hh as Hh; subst;
    eexists; split; [apply adjust_nth_Some; exact Hn|];
    rewrite liveStream_map; [exact Hl|intros; reflexivity]
  | let h := fresh "h" in let Hh := fresh "Hh" in
    intros h Hh; destruct (H h Hh) as (ts & Hn & Hl);
    exists ts; split; [|exact Hl];
    rewrite nth_error_app1; [exact Hn|];
    apply nth_error_Some; congruence ].

Ltac solve_pane H :=
  first [ exact H | reflexivity
        | rewrite <- H, ?map_app; reflexivity
        | rewrite <- H, ?map_app;
          erewrite removeLoadingParent_inside by eassumption; reflexivity ].

Ltac in_cases :=
  repeat match goal with
  | H : In _ (_ ++ _) |- _ => apply in_app_or in H; destruct H as [H|H]
  | H : In _ (filter _ _) |- _ => apply filter_In in H; destruct H as [H _]
  | H : In _ [_] |- _ => destruct H as [H|[]]
  | H : In _ [] |- _ => destruct H
  | H : (_, _) = (_, _) |- _ => injection H as ? ?; subst
  | H : Some _ = Some _ |- _ => injection H as H; subst
  | H : _ = ?v |- _ => is_var v; subst v
  end.

Ltac timer_part1 H1 :=
  let e := fresh "e" in let He := fresh "He" in
  intros e He; in_cases; try (apply H1 in He); cbn in *; lia.

Ltac timer_part2 H1 H2 :=
  let id := fresh "id" in let pd := fresh "pd" in let iv := fresh "iv" in
  let Hid := fresh "Hid" in let Hin := fresh "Hin" in
  intros id pd iv Hid Hin; in_cases; try discriminate;
  first [ reflexivity
        | eapply H2; [first [reflexivity|eassumption]|eassumption]
        | apply H1 in Hin; cbn in Hin; lia ].

Ltac solve_timer H :=
  first
  [ exact H
  | let H1 := fresh "H1" in let H2 := fresh "H2" in
    destruct H as [H1 H2]; split; [timer_part1 H1|timer_part2 H1 H2] ].

Ltac sent_part2 H1 H2 :=
  let t0 := fresh "t" in let s0 := fresh "s" in let ts0 := fresh "ts" in
  let Hin := fresh "Hin" in
  intros t0 s0 ts0 Hin; in_cases; try discriminate;
  first [ eapply H2; eassumption
        | injection Hin as ? ? ?; subst; split;
          [ apply truthy_true; assumption | apply H1; reflexivity ] ].

Ltac solve_sent H :=
  first
  [ exact H
  | let H1 := fresh "H1" in let H2 := fresh "H2" in
    destruct H as [H1 H2]; split;
    [ first [exact H1 | intros; discriminate ]
    | first [exact H2 | sent_part2 H1 H2 ] ] ].

Lemma step_quiet (ev : Event) (st : State) :
  quiet st -> quiet (step ev st).
Proof.
  unfold quiet. destruct ev.
  2: { open_endCall st.
       destruct speechSynthesis0, timerInterval0, mediaStream0; exec_all;
         (simpl; intros; lia). }
  23: { open_state st. unfold step. cbn [browser promises].
        match goal with
        | |- context [@nth_error ?A ?l ?k] =>
          destruct (@nth_error A l k) as [[[]|]|]
        end;
        destruct granted, visualizerCanvas0, audioContextAvailable0,
          isCallActive0, isConnected0; crush; (simpl; intros; lia). }
  16: { unfold step, andThen. rewrite handleVoiceResponse_eq.
        open_state st; crush; (simpl; intros; lia). }
  all: open_state st; crush; (simpl; intros; lia).
Qed.

Lemma step_heldStreamLive (ev : Event) (st : State) :
  heldStreamLive st -> heldStreamLive (step ev st).
Proof.
  unfold heldStreamLive. destruct ev.
  2: { open_endCall st.
       destruct speechSynthesis0, timerInterval0, mediaStream0; exec_all;
         (let H := fresh "H" in intros H; solve_stream H). }
  23: { open_state st. unfold step. cbn [browser promises].
        match goal with
        | |- context [@nth_error ?A ?l ?k] =>
          destruct (@nth_error A l k) as [[[]|]|]
        end;
        destruct granted, visualizerCanvas0, audioContextAvailable0,
          isCallActive0, isConnected0; crush; (let H := fresh "H" in intros H; solve_stream H). }
  16: { unfold step, andThen. rewrite handleVoiceResponse_eq.
        open_state st; crush; (let H := fresh "H" in intros H; solve_stream H). }
  all: open_state st; crush; (let H := fresh "H" in intros H; solve_stream H).
Qed.

Lemma step_paneMirrorsHistory (ev : Event) (st : State) :
  paneMirrorsHistory st -> paneMirrorsHistory (step ev st).
Proof.
  unfold paneMirrorsHistory. destruct ev.
  2: { open_endCall st.
       destruct speechSynthesis0, timerInterval0, mediaStream0; exec_all;
         (let H := fresh "H" in intros H; solve_pane H). }
  23: { open_state st. unfold step. cbn [browser promises].
        match goal with
        | |- context [@nth_error ?A ?l ?k] =>
          destruct (@nth_error A l k) as [[[]|]|]
        end;
        destruct granted, visualizerCanvas0, audioContextAvailable0,
          isCallActive0, isConnected0; crush; (let H := fresh "H" in intros H; solve_pane H). }
  16: { unfold step, andThen. rewrite handleVoiceResponse_eq.
        open_state st; crush; (let H := fresh "H" in intros H; solve_pane H). }
  all: open_state st; crush; (let H := fresh "H" in intros H; solve_pane H).
Qed.

Lemma step_timerKnown (ev : Event) (st : State) :
  timerKnown st -> timerKnown (step ev st).
Proof.
  unfold timerKnown. destruct ev.
  2: { open_endCall st.
       destruct speechSynthesis0, timerInterval0, mediaStream0; exec_all;
         (let H := fresh "H" in intros H; solve_timer H). }
  23: { open_state st. unfold step. cbn [browser promises].
        match goal with
        | |- context [@nth_error ?A ?l ?k] =>
          destruct (@nth_error A l k) as [[[]|]|]
        end;
        destruct granted, visualizerCanvas0, audioContextAvailable0,
          isCallActive0, isConnected0; crush; (let H := fresh "H" in intros H; solve_timer H). }
  16: { unfold step, andThen. rewrite handleVoiceResponse_eq.
        open_state st; crush; (let H := fresh "H" in intros H; solve_timer H). }
  all: open_state st; crush; (let H := fresh "H" in intros H; solve_timer H).
Qed.

Lemma step_sentWellFormed (ev : Event) (st : State) :
  sentWellFormed st -> sentWellFormed (step ev st).
Proof.
  unfold sentWellFormed. destruct ev.
  2: { open_endCall st.
       destruct speechSynthesis0, timerInterval0, mediaStream0; exec_all;
         (let H := fresh "H" in intros H; solve_sent H). }
  23: { open_state st. unfold step. cbn [browser promises].
        match goal with
        | |- context [@nth_error ?A ?l ?k] =>
          destruct (@nth_error A l k) as [[[]|]|]
        end;
        destruct granted, visualizerCanvas0, audioContextAvailable0,
          isCallActive0, isConnected0; crush; (let H := fresh "H" in intros H; solve_sent H). }
  16: { unfold step, andThen. rewrite handleVoiceResponse_eq.
        open_state st; crush; (let H := fresh "H" in intros H; solve_sent H). }
  all: open_state st; crush; (let H := fresh "H" in intros H; solve_sent H).
Qed.

Ltac solve_keep H2 Hk :=
  first
  [ exact Hk
  | apply in_or_app; left; exact Hk
  | let E := fresh "E" in
    apply filter_In; split; [exact Hk|];
    cbn [fst]; apply negb_true_iff, Pos.eqb_neq; intros E; subst;
    discriminate (H2 _ _ _ eq_refl Hk) ].

Lemma step_keepAliveInstalled (ev : Event) (st : State) :
  timerKnown st -> keepAliveInstalled st -> keepAliveInstalled (step ev st).
Proof.
  unfold timerKnown, keepAliveInstalled. destruct ev.
  2: { open_endCall st.
       destruct speechSynthesis0, timerInterval0, mediaStream0; exec_all;
         (intros [H1 H2] Hk; solve_keep H2 Hk). }
  23: { open_state st. unfold step. cbn [browser promises].
        match goal with
        | |- context [@nth_error ?A ?l ?k] =>
          destruct (@nth_error A l k) as [[[]|]|]
        end;
        destruct granted, visualizerCanvas0, audioContextAvailable0,
          isCallActive0, isConnected0; crush; (intros [H1 H2] Hk; solve_keep H2 Hk). }
  16: { unfold step, andThen. rewrite handleVoiceResponse_eq.
        open_state st; crush; (intros [H1 H2] Hk; solve_keep H2 Hk). }
  all: open_state st; crush; (intros [H1 H2] Hk; solve_keep H2 Hk).
Qed.

Lemma run_invariant (P : State -> Prop) :
  (forall ev st, P st -> P (step ev st)) ->
  forall evs st, P st -> P (run evs st).
Proof.
  intros Hs evs. unfold run.
  induction evs as [|ev evs IH]; intros st H; simpl; auto.
Qed.

Lemma construct_quiet (e : Env) : quiet (construct e).
Proof.
  destruct e as [p io sr ss ac vs n lr]. unfold quiet, construct.
  destruct io, sr, ss; crush; simpl; lia.
Qed.

Lemma construct_heldStreamLive (e : Env) : heldStreamLive (construct e).
Proof.
  destruct e as [p io sr ss ac vs n lr]. unfold heldStreamLive, construct.
  destruct io, sr, ss; crush; intros; discriminate.
Qed.

Lemma construct_paneMirrorsHistory (e : Env) :
  conversationPane (envPage e) = [] -> paneMirrorsHistory (construct e).
Proof.
  destruct e as [p io sr ss ac vs n lr]. unfold paneMirrorsHistory, construct.
  destruct p. destruct io, sr, ss; crush; intros ->; reflexivity.
Qed.

Lemma construct_timerKnown (e : Env) : timerKnown (construct e).
Proof.
  destruct e as [p io sr ss ac vs n lr]. unfold timerKnown, construct.
  destruct io, sr, ss; crush; (split; [|intros; discriminate]);
    intros x Hx; in_cases; cbn; lia.
Qed.

Lemma construct_sentWellFormed (e : Env) : sentWellFormed (construct e).
Proof.
  destruct e as [p io sr ss ac vs n lr]. unfold sentWellFormed, construct.
  destruct io, sr, ss; crush; (split; [intros; discriminate|]);
    intros t s ts H; in_cases; discriminate.
Qed.

Lemma construct_keepAliveInstalled (e : Env) :
  envSocketIO e = true -> keepAliveInstalled (construct e).
Proof.
  destruct e as [p io sr ss ac vs n lr]. unfold keepAliveInstalled, construct.
  intros H. cbn in H. subst io.
  destruct sr, ss; crush; left; reflexivity.
Qed.

(** X21. In every state the page can reach, whatever events arrive, at
    most one utterance is outstanding in the speech synthesizer. *)
Theorem one_utterance_at_a_time (e : Env) (evs : list Event) :
  (List.length (outstanding (run evs (construct e))) <= 1)%nat.
Proof.
  apply (run_invariant quiet step_quiet). apply construct_quiet.
Qed.

(** X22. The system never keeps the handle of a stream it has stopped: in
    every state the page can reach, the stream that [mediaStream] refers to
    exists and has a track that was not stopped. *)
Theorem held_stream_is_live (e : Env) (evs : list Event) (h : nat) :
  mediaStream (this (run evs (construct e))) = Some h ->
  exists ts, nth_error (streams (browser (run evs (construct e)))) h = Some ts
             /\ liveStream ts = true.
Proof.
  revert h. change (heldStreamLive (run evs (construct e))).
  apply (run_invariant heldStreamLive step_heldStreamLive).
  apply construct_heldStreamLive.
Qed.

Lemma held_stream_is_live_witness :
  exists ts,
    nth_error
      (streams
         (browser
            (run [EvSocketConnect (lit "s1"); EvStartCallClick;
                  EvGetUserMediaSettled 1 true; EvMuteClick]
               (construct sampleEnv)))) 0 = Some ts
    /\ liveStream ts = true.
Proof.
  apply (@held_stream_is_live sampleEnv
           [EvSocketConnect (lit "s1"); EvStartCallClick;
            EvGetUserMediaSettled 1 true; EvMuteClick] 0%nat).
  vm_compute. reflexivity.
Defined.

(** X23. On a page whose conversation pane starts empty, the message divs
    of the pane and the entries of [messageHistory] stay in step: in every
    state the page can reach the pane holds one div per entry, in the same
    order, made with the same role, text and time. *)
Theorem pane_mirrors_history (e : Env) (evs : list Event) :
  conversationPane (envPage e) = [] ->
  map messageOfNode (conversationPane (page (run evs (construct e))))
  = messageHistory (this (run evs (construct e))).
Proof.
  intros H. change (paneMirrorsHistory (run evs (construct e))).
  apply (run_invariant paneMirrorsHistory step_paneMirrorsHistory).
  apply construct_paneMirrorsHistory. exact H.
Qed.

Lemma pane_mirrors_history_witness :
  map messageOfNode
    (conversationPane
       (page (run [EvSocketConnect (lit "s1"); EvStartCallClick;
                   EvGetUserMediaSettled 1 true;
                   EvRecognitionResult (lit "Hello");
                   EvVoiceResponse (lit "Hi there") true]
                (construct sampleEnv))))
  = messageHistory
      (this (run [EvSocketConnect (lit "s1"); EvStartCallClick;
                  EvGetUserMediaSettled 1 true;
                  EvRecognitionResult (lit "Hello");
                  EvVoiceResponse (lit "Hi there") true]
               (construct sampleEnv))).
Proof.
  apply (@pane_mirrors_history sampleEnv).
  vm_compute. reflexivity.
Defined.

(** X24. Where the socket.io client is loaded, the keep-alive interval of
    30 s that [initializeSocket] installs is never cleared: no [endCall],
    however many calls were started, removes it, because the handle in
    [timerInterval] is never that of the keep-alive interval. *)
Theorem keep_alive_survives (e : Env) (evs : list Event) :
  envSocketIO e = true ->
  exists id,
    In (id, (30000, IvKeepAlive)) (intervals (browser (run evs (construct e)))).
Proof.
  intros H. exists 1%positive.
  assert (K : timerKnown (run evs (construct e))
              /\ keepAliveInstalled (run evs (construct e))).
  { apply (run_invariant (fun st => timerKnown st /\ keepAliveInstalled st)).
    - intros ev st [A B]. split.
      + apply step_timerKnown; exact A.
      + apply step_keepAliveInstalled; assumption.
    - split; [apply construct_timerKnown|apply construct_keepAliveInstalled; exact H]. }
  exact (proj2 K).
Qed.

Lemma keep_alive_survives_witness :
  exists id,
    In (id, (30000, IvKeepAlive))
      (intervals
         (browser
            (run [EvSocketConnect (lit "s1"); EvStartCallClick;
                  EvGetUserMediaSettled 1 true; EvEndCallClick]
               (construct sampleEnv)))).
Proof.
  apply (@keep_alive_survives sampleEnv). vm_compute. reflexivity.
Defined.

(** X25. Every [voice_input] the page has sent carries a transcript that
    is not blank and a session id: transcripts are sent only while the
    socket is connected, and the session id is set whenever it is. *)
Theorem voice_input_well_formed
  (e : Env) (evs : list Event) (t : jsstring) (s : option jsstring) (ts : Z) :
  In (EmVoiceInput t s ts) (emitted (browser (run evs (construct e)))) ->
  trim t <> [] /\ s <> None.
Proof.
  assert (K : sentWellFormed (run evs (construct e))).
  { apply (run_invariant sentWellFormed step_sentWellFormed).
    apply construct_sentWellFormed. }
  destruct K as [_ K]. apply K.
Qed.

Lemma voice_input_well_formed_witness :
  trim (lit "Hello") <> [] /\ Some (lit "s1") <> None.
Proof.
  apply (@voice_input_well_formed sampleEnv
           [EvSocketConnect (lit "s1"); EvRecognitionResult (lit "Hello")]
           (lit "Hello") (Some (lit "s1")) 1700000000000).
  vm_compute. left. reflexivity.
Defined.

(** *** The visualizer *)

(** X26. The drawing loop of the visualizer runs only during a call.  A
    microphone granted while no call is active requests no animation frame,
    also when the grant goes on to activate the call; and a frame that
    fires while no call is active requests no further frame. *)
Theorem visualizer_needs_active_call (st : State) :
  isCallActive (this st) = false ->
  (forall caller,
     frames (browser (getUserMediaSettled caller true st)) = frames (browser st)
     /\ visualizerAnimationId (this (getUserMediaSettled caller true st))
        = visualizerAnimationId (this st))
  /\ (forall id,
        frames (browser (step (EvAnimationFrame id) st))
        = filter (fun f => negb (Pos.eqb f id)) (frames (browser st))).
Proof.
  intros H. split.
  - intros caller. open_state st.
    destruct caller, visualizerCanvas0, audioContextAvailable0, isConnected0,
      voiceSettings0 as [r pi [|] l]; exec_all; split; reflexivity.
  - intros id. open_state st. exec_all.
    destruct (existsb (Pos.eqb id) frames0) eqn:E; exec_all; [reflexivity|].
    symmetry. apply forallb_filter_id. apply forallb_forall. intros f Hf.
    apply negb_true_iff, Pos.eqb_neq. intros ->.
    assert (X : existsb (Pos.eqb id) frames0 = true).
    { apply existsb_exists. exists id. split; [exact Hf|apply Pos.eqb_refl]. }
    congruence.
Qed.

Lemma visualizer_needs_active_call_witness :
  frames (browser (getUserMediaSettled FromStartCall true (startCall connected)))
  = frames (browser (startCall connected)).
Proof.
  destruct (@visualizer_needs_active_call (startCall connected)) as (H & _).
  - vm_compute. reflexivity.
  - exact (proj1 (H FromStartCall)).
Defined.

End VoiceCallMore.

(* ------------------------------------------------------------------ *)
(** ** More properties of the document ingestion form *)

Module AddDataMore.

Import JsString AddData AddDataFacts.
Local Open Scope Z_scope.

(** X27. A submission whose text is empty or only whitespace is refused in
    the handler: the message asking for content is shown as an error, no
    request is made, nothing is scheduled, and the button and the input are
    left as they were. *)
Theorem empty_document_rejected (f : Form) :
  trim (dataInput f) = [] ->
  (exists a, response (onSubmit f) = Some a
             /\ alertText a = lit "Please enter some document content.")
  /\ requests (onSubmit f) = requests f
  /\ scheduled (onSubmit f) = scheduled f
  /\ submitDisabled (onSubmit f) = submitDisabled f
  /\ submitHtml (onSubmit f) = submitHtml f
  /\ dataInput (onSubmit f) = dataInput f.
Proof.
  intros H. unfold onSubmit. rewrite H. cbn [truthy negb].
  destruct (showMessage_error (lit "Please enter some document content.") f)
    as (a & -> & Ha).
  split; [exists a; split; [reflexivity|exact Ha]|]. repeat split.
Qed.

Lemma empty_document_rejected_witness :
  requests (onSubmit (emptyForm (lit "   "))) = [].
Proof.
  apply (@empty_document_rejected (emptyForm (lit "   "))).
  vm_compute. reflexivity.
Defined.

(** X28. When the request has ended, the input is cleared and the two
    timeouts (auto-hide after 5000 ms, statistics refresh after 1000 ms)
    are scheduled only for a 2xx answer whose body parses to a JSON value
    other than [null].  In every other case (a rejected fetch, a status
    that is not 2xx, a body that is not JSON, the body [null]) a red error
    alert is shown, the text typed is kept and nothing is scheduled; a 2xx
    answer whose body is not JSON or is [null] is reported as a network
    error.  No outcome makes a further request. *)
Theorem settled_outcome (f : Form) (out : FetchOutcome) :
  let ok := match out with Resolved true (Json _ _) => true | _ => false end in
  let f' := onSettled out f in
  dataInput f' = (if ok then [] else dataInput f)
  /\ scheduled f' =
     scheduled f
     ++ (if ok then [(5000, TaskClearResponse); (1000, TaskLoadStats)] else [])
  /\ requests f' = requests f
  /\ option_map alertClass (response f') =
     Some (if ok then lit "bg-green-500/10 border-green-500/30 text-green-400"
           else lit "bg-red-500/10 border-red-500/30 text-red-400")
  /\ option_map alertText (response f') =
     Some
       match out with
       | Rejected m | Resolved _ (NotJson m) | Resolved _ (JsonNull m) =>
         lit "❌ Network Error: " ++ m
       | Resolved true (Json n _) =>
         lit "✅ Success! Added " ++ printed n
         ++ lit " document chunk(s) to knowledge base."
       | Resolved false (Json _ e) => lit "❌ Error: " ++ printed e
       end.
Proof.
  intros ok f'. subst ok f'. unfold onSettled, showMessage.
  rewrite error_is_not_success, success_is_success.
  destruct out as [m|[|] [n e|m|m]]; cbn; rewrite <- ?app_assoc, ?app_nil_r;
    repeat split.
Qed.

(** X29. The auto-hide of a success message is never cancelled.  After a
    successful upload the input is empty, so a second press of the button
    shows the message asking for content; the timeout of the success
    message is still pending, and when it runs it removes that error. *)
Theorem auto_hide_removes_later_error (f : Form) (n e : option jsstring) :
  let f1 := onSettled (Resolved true (Json n e)) f in
  let f2 := onSubmit f1 in
  (exists a, response f2 = Some a
             /\ alertText a = lit "Please enter some document content.")
  /\ In (5000, TaskClearResponse) (scheduled f2)
  /\ requests f2 = requests f
  /\ response (runTask TaskClearResponse f2) = None.
Proof.
  intros f1 f2. subst f1 f2. unfold onSubmit.
  rewrite onSettled_success_clears_input. cbn [trim trimStart trimEnd truthy negb].
  unfold onSettled, showMessage.
  rewrite error_is_not_success, success_is_success. cbn.
  split; [eexists; split; reflexivity|].
  split; [apply in_or_app; left; apply in_or_app; right; left; reflexivity|].
  split; reflexivity.
Qed.

End AddDataMore.
